(** * Inquis expense tracker: category inference and the expense store

    A shallow embedding of the two variants of the tracker,
    [expnctrackerv2.py] (desktop, Tkinter) and [expnctrackerv3.py]
    (browser, Streamlit), together with the SQL statements both of them
    run against the single table [expenses].

    Modelling conventions.
    - Python [str] values are [string]s holding ASCII text ([Py.is_ascii]);
      text with characters above 127 is outside the model.
    - The SQLite column type REAL and the finite values of Python's [float]
      are modelled by exact rationals [Q]: IEEE rounding and overflow are
      outside the model, and equality of amounts is [Qeq].  A stored amount
      is finite; where the desktop program stores an infinity or NaN the
      model says so and stops there.
    - The rowid is an integer [Z]; SQLite's storage failure at rowid 2^63-1
      is outside the model.
    - The clock reading [datetime.now().strftime("%Y-%m-%d")] is passed in
      as the argument [today]. *)

From Stdlib Require Import ZArith QArith Qabs List String Ascii Bool.
From Stdlib Require Import Permutation Sorted Lia Lqa Setoid Morphisms.
From Stdlib Require Import DecimalString DecimalZ DecimalPos.
Import ListNotations.

Local Open Scope list_scope.
Local Open Scope string_scope.

(** ** Python string operations *)

Module Py.

(** [c.lower()] on one ASCII character. *)
Definition lower_ascii (c : ascii) : ascii :=
  let n := N_of_ascii c in
  if (65 <=? n)%N && (n <=? 90)%N then ascii_of_N (n + 32) else c.

(** [s.lower()] *)
Fixpoint lower (s : string) : string :=
  match s with
  | EmptyString => EmptyString
  | String c t => String (lower_ascii c) (lower t)
  end.

(** [x in desc] on strings: [x] occurs in [desc] as a contiguous run. *)
Fixpoint str_in (x desc : string) : bool :=
  match desc with
  | EmptyString => String.prefix x EmptyString
  | String _ t => String.prefix x desc || str_in x t
  end.

(** [any(x in desc for x in words)] *)
Definition any_in (words : list string) (desc : string) : bool :=
  existsb (fun x => str_in x desc) words.

(** Truthiness of a string: [not s] holds for the empty string only. *)
Definition truthy (s : string) : bool :=
  match s with EmptyString => false | String _ _ => true end.

(** [sum(xs)] over exact amounts. *)
Definition sum (xs : list Q) : Q := fold_right Qplus 0 xs.

(** [a > b] on amounts. *)
Definition gt (a b : Q) : bool := negb (Qle_bool a b).

(** *** [float(s)]

    The values of a Python float as far as they are told apart here: a
    finite value, taken exactly, or one of the values that are not
    finite. *)
Inductive nonfinite :=
| infinity (negative : bool)
| nan.

Inductive pyfloat :=
| finite (q : Q)
| special (x : nonfinite).


(** The whitespace [float] strips from ASCII text: tab, line feed, vertical
    tab, form feed, carriage return and space. *)
Definition is_space (c : ascii) : bool :=
  let n := N_of_ascii c in
  ((9 <=? n) && (n <=? 13) || (n =? 32))%N.

Fixpoint lstrip (s : string) : string :=
  match s with
  | EmptyString => EmptyString
  | String c t => if is_space c then lstrip t else s
  end.

Fixpoint rstrip (s : string) : string :=
  match s with
  | EmptyString => EmptyString
  | String c t =>
      match rstrip t with
      | EmptyString => if is_space c then EmptyString else String c EmptyString
      | t' => String c t'
      end
  end.

Definition strip (s : string) : string := rstrip (lstrip s).

Definition digit (c : ascii) : option Z :=
  let n := N_of_ascii c in
  if (48 <=? n)%N && (n <=? 57)%N then Some (Z.of_N (n - 48)) else None.

Definition is_digit (c : ascii) : bool :=
  match digit c with
  | Some _ => true
  | None => false
  end.

(** Underscores in a numeral: one is allowed only right after a digit and
    right before a digit.  Returns the text without them, [None] when one
    is misplaced; [prev] is the character read last. *)
Fixpoint drop_underscores (prev : ascii) (s : string) : option string :=
  match s with
  | EmptyString => if Ascii.eqb prev "_" then None else Some EmptyString
  | String c t =>
      if Ascii.eqb c "_" then
        if is_digit prev then drop_underscores c t else None
      else if Ascii.eqb prev "_" && negb (is_digit c) then None
      else option_map (String c) (drop_underscores c t)
  end.

(** Reads the leading digits of [s] after the value [acc]: the value read,
    the number of digits, and what is left of [s]. *)
Fixpoint digits (s : string) (acc count : Z) : Z * Z * string :=
  match s with
  | EmptyString => (acc, count, s)
  | String c t =>
      match digit c with
      | Some v => digits t (10 * acc + v)%Z (count + 1)%Z
      | None => (acc, count, s)
      end
  end.

Definition sign (s : string) : bool * string :=
  match s with
  | String "-"%char t => (true, t)
  | String "+"%char t => (false, t)
  | _ => (false, s)
  end.

Definition signed (neg : bool) (n : Z) : Z := if neg then (- n)%Z else n.

(** A decimal numeral after its sign: digits with an optional point and an
    optional exponent, at least one digit before the exponent and at least
    one in it. *)
Definition decimal (neg : bool) (s1 : string) : option Q :=
  let '(ip, ni, s2) := digits s1 0 0 in
  let '(m, nf, s3) :=
    match s2 with
    | String "."%char t => digits t ip 0
    | _ => (ip, 0%Z, s2)
    end in
  if (ni + nf =? 0)%Z then None
  else
    match s3 with
    | EmptyString => Some (inject_Z (signed neg m) * Qpower 10 (- nf))
    | String c t =>
        if Ascii.eqb c "e" || Ascii.eqb c "E" then
          let '(eneg, s4) := sign t in
          let '(e, ne, s5) := digits s4 0 0 in
          if (ne =? 0)%Z then None
          else
            match s5 with
            | EmptyString =>
                Some (inject_Z (signed neg m) * Qpower 10 (signed eneg e - nf))
            | String _ _ => None
            end
        else None
    end.

(** [float(s)] on ASCII text; [None] stands for [ValueError].  Underscores
    are checked and dropped, surrounding whitespace is stripped, and what
    is left is an optional sign followed by [inf], [infinity] or [nan] in
    any letter case, or by a decimal numeral. *)
Definition float (s : string) : option pyfloat :=
  match drop_underscores zero s with
  | None => None
  | Some s0 =>
      let '(neg, s1) := sign (strip s0) in
      let word := lower s1 in
      if (word =? "inf") || (word =? "infinity") then
        Some (special (infinity neg))
      else if word =? "nan" then Some (special nan)
      else option_map finite (decimal neg s1)
  end.

(** *** Sorting

    [sorted(l)] for a comparison given as a boolean "comes no later than":
    insertion into an already ordered list, element by element. *)
Section Sorting.

Context {A : Type}.
Variable leb : A -> A -> bool.

Fixpoint insert_sorted (x : A) (l : list A) : list A :=
  match l with
  | [] => [x]
  | y :: t => if leb x y then x :: l else y :: insert_sorted x t
  end.

Definition sort_by (l : list A) : list A := fold_right insert_sorted [] l.

End Sorting.

(** *** Series

    A pandas series with text labels is the list of its (label, value)
    entries in order. *)

(** [s.mean()]; [None] stands for the NaN of an empty series. *)
Definition mean (xs : list Q) : option Q :=
  match xs with
  | [] => None
  | _ => Some (sum xs / inject_Z (Z.of_nat (List.length xs)))
  end.

(** The entry [s.idxmax()] points at: the first one, in series order, whose
    value no other entry exceeds. *)
Fixpoint argmax (s : list (string * Q)) : option (string * Q) :=
  match s with
  | [] => None
  | (k, v) :: t =>
      match argmax t with
      | Some (k', v') => if Qle_bool v' v then Some (k, v) else Some (k', v')
      | None => Some (k, v)
      end
  end.

(** [s.idxmax()]; [None] stands for the [ValueError] of an empty series. *)
Definition idxmax (s : list (string * Q)) : option string :=
  option_map fst (argmax s).

(** *** [str(i)] and [int(s)] for integers

    [str] writes the decimal numeral, with a minus sign below zero.  [int]
    reads a numeral of digits with an optional minus sign; [None] stands for
    [ValueError].  A plus sign, surrounding whitespace and underscores
    between digits are not modelled. *)
Definition str (i : Z) : string := NilZero.string_of_int (Z.to_int i).

Definition int (s : string) : option Z :=
  option_map Z.of_int (NilZero.int_of_string s).

End Py.

(** ** The keyword table as the specification lists it *)

Module Spec.

Definition Food : list string :=
  ["pizza"; "food"; "coffee"; "lunch"; "restaurant"; "snack"].
Definition Travel : list string := ["uber"; "bus"; "train"; "petrol"; "cab"].
Definition Bills : list string := ["rent"; "bill"; "recharge"; "electricity"].
Definition Health : list string :=
  ["doctor"; "pharmacy"; "medicine"; "hospital"].
Definition Shopping : list string := ["amazon"; "clothes"; "mall"; "shopping"].

Definition keyword_groups : list (string * list string) :=
  [("Food", Food); ("Travel", Travel); ("Bills", Bills);
   ("Health", Health); ("Shopping", Shopping)].

(** The generic matching routine of the specification: the label of the
    first group, in table order, one of whose keywords occurs in the
    normalised text; [Miscellaneous] when there is none. *)
Fixpoint first_match (groups : list (string * list string)) (text : string)
  : string :=
  match groups with
  | [] => "Miscellaneous"
  | (label, words) :: rest =>
      if Py.any_in words text then label else first_match rest text
  end.

(** A keyword occurs in a description in some letter case. *)
Definition occurs_nocase (k d : string) : Prop :=
  exists pre w post, d = pre ++ w ++ post /\ Py.lower w = k.

(** A description contains some keyword of a group. *)
Definition mentions (words : list string) (d : string) : Prop :=
  exists k, In k words /\ occurs_nocase k d.

(** A description contains no keyword of any of the groups. *)
Definition mentions_none (groups : list (string * list string)) (d : string)
  : Prop :=
  forall label words, In (label, words) groups -> ~ mentions words d.

(** The Food rule for a keyword list [words]: a description with one of
    [words] and no keyword of the four other groups is classified Food. *)
Definition food_rule (words : list string) (sc : string -> string) : Prop :=
  forall d, mentions words d -> mentions_none (tl keyword_groups) d ->
            sc d = "Food".

(** Two results of an operation tell a removal from none: some reading of
    the result says "removed" for the first and "nothing removed" for the
    second. *)
Definition reports_removal {R : Type} (first second : R) : Prop :=
  exists removed : R -> bool, removed first = true /\ removed second = false.

(** A categorizer that tries the groups of a table in order. *)
Definition first_group_wins (groups : list (string * list string))
  (sc : string -> string) : Prop :=
  (forall d pre label words post,
      groups = (pre ++ (label, words) :: post)%list ->
      mentions words d -> mentions_none pre d -> sc d = label) /\
  (forall d, mentions_none groups d -> sc d = "Miscellaneous").

End Spec.

(** ** The table [expenses] and the SQL statements run against it *)

Module Sql.

(** One row: [id INTEGER PRIMARY KEY AUTOINCREMENT, date TEXT,
    description TEXT, amount REAL, category TEXT]. *)
Record expense := mkExpense {
  id : Z;
  date : string;
  description : string;
  amount : Q;
  category : string
}.

(** The database file: the rows of [expenses] in storage order, and the
    counter SQLite keeps for an AUTOINCREMENT key (the largest rowid the
    table has ever held). *)
Record db := mkDb {
  expenses : list expense;
  sqlite_sequence : Z
}.

(** A file in which the table does not exist yet. *)
Definition empty : db := {| expenses := []; sqlite_sequence := 0 |}.

(** [CREATE TABLE IF NOT EXISTS expenses (...)] on connecting: a fresh file
    gets the empty table, an existing one is left as it is. *)
Definition create_table_if_not_exists (file : option db) : db :=
  match file with
  | None => empty
  | Some d => d
  end.

Definition max_rowid (rows : list expense) : Z :=
  fold_right (fun r m => Z.max (id r) m) 0%Z rows.

(** [INSERT INTO expenses (date, description, amount, category)
    VALUES (?,?,?,?)]: the key is one more than the largest rowid that ever
    was in the table.  Returns the database and [cursor.lastrowid]. *)
Definition insert (dt desc : string) (amt : Q) (cat : string) (d : db)
  : db * Z :=
  let rowid := (Z.max (max_rowid (expenses d)) (sqlite_sequence d) + 1)%Z in
  ({| expenses := (expenses d ++ [mkExpense rowid dt desc amt cat])%list;
      sqlite_sequence := rowid |},
   rowid).

(** [DELETE FROM expenses WHERE id=?] *)
Definition delete_where_id (i : Z) (d : db) : db :=
  {| expenses := filter (fun r => negb (id r =? i)%Z) (expenses d);
     sqlite_sequence := sqlite_sequence d |}.

(** [SELECT * FROM expenses ORDER BY id DESC] *)
Definition select_all_order_by_id_desc (d : db) : list expense :=
  Py.sort_by (fun a b => (id b <=? id a)%Z) (expenses d).

(** [SELECT SUM(amount) FROM expenses]: NULL over no rows. *)
Definition select_sum_amount (d : db) : option Q :=
  match expenses d with
  | [] => None
  | rows => Some (Py.sum (map amount rows))
  end.

(** Grouping rows by a text column and summing [amount] in each group; the
    groups come out in key order. *)
Definition group_sum (key : expense -> string) (rows : list expense)
  : list (string * Q) :=
  map (fun k =>
         (k, Py.sum (map amount (filter (fun r => key r =? k) rows))))
      (Py.sort_by String.leb (nodup string_dec (map key rows))).

(** [SELECT category, SUM(amount) FROM expenses GROUP BY category] *)
Definition select_category_sum_group_by_category (d : db)
  : list (string * Q) :=
  group_sum category (expenses d).

(** Histories of the table: the statements the two programs issue. *)
Inductive statement :=
| Insert (dt desc : string) (amt : Q) (cat : string)
| Delete (i : Z).

(** Runs the statements in order; also returns, oldest first, the keys
    the inserts were given. *)
Fixpoint run (stmts : list statement) (d : db) : db * list Z :=
  match stmts with
  | [] => (d, [])
  | Insert dt desc amt cat :: rest =>
      let '(d1, i) := insert dt desc amt cat d in
      let '(d2, ids) := run rest d1 in
      (d2, i :: ids)
  | Delete i :: rest => run rest (delete_where_id i d)
  end.

(** The states the table can be in: whatever a history of inserts and
    deletes makes of the empty table. *)
Definition reachable (d : db) : Prop :=
  exists stmts, fst (run stmts empty) = d.

(** The row with a given key, as a listing shows it. *)
Definition row_with_id (i : Z) (listing : list expense) : option expense :=
  find (fun r => (id r =? i)%Z) listing.

(** The invariant of the reachable states: rows are stored in key order,
    and every key is positive and at most the counter. *)
Definition consistent (d : db) : Prop :=
  StronglySorted (fun a b => (id a < id b)%Z) (expenses d) /\
  Forall (fun r => (0 < id r <= sqlite_sequence d)%Z) (expenses d) /\
  (0 <= sqlite_sequence d)%Z.

End Sql.

(** ** Variant 2: the desktop program *)

Module V2.

Definition suggest_category (description : string) : string :=
  let desc := Py.lower description in
  if Py.any_in ["pizza"; "food"; "coffee"; "lunch"; "restaurant"] desc then
    "Food"
  else if Py.any_in ["uber"; "bus"; "train"; "petrol"; "cab"] desc then
    "Travel"
  else if Py.any_in ["rent"; "bill"; "recharge"; "electricity"] desc then
    "Bills"
  else if Py.any_in ["doctor"; "pharmacy"; "medicine"; "hospital"] desc then
    "Health"
  else if Py.any_in ["amazon"; "clothes"; "mall"; "shopping"] desc then
    "Shopping"
  else
    "Miscellaneous".

(** The keyword lists of the branches above, in branch order. *)
Definition keyword_groups : list (string * list string) :=
  [("Food", ["pizza"; "food"; "coffee"; "lunch"; "restaurant"]);
   ("Travel", ["uber"; "bus"; "train"; "petrol"; "cab"]);
   ("Bills", ["rent"; "bill"; "recharge"; "electricity"]);
   ("Health", ["doctor"; "pharmacy"; "medicine"; "hospital"]);
   ("Shopping", ["amazon"; "clothes"; "mall"; "shopping"])].

(** A dialog of [tkinter.messagebox]. *)
Inductive messagebox :=
| showwarning (title message : string)
| showerror (title message : string)
| showinfo (title message : string).

(** What [refresh_table] puts on the window: the rows of the tree widget and
    the amount written on [total_label]. *)
Record window := mkWindow {
  tree : list Sql.expense;
  total_label : Q
}.

(** [update_summary]: the amount formatted into the label,
    [total if total else 0]. *)
Definition update_summary (d : Sql.db) : Q :=
  match Sql.select_sum_amount d with
  | Some total => if Qeq_bool total 0 then 0 else total
  | None => 0
  end.

Definition refresh_table (d : Sql.db) : window :=
  {| tree := Sql.select_all_order_by_id_desc d;
     total_label := update_summary d |}.

(** [add_expense], on the texts of the three entry fields.  Either a dialog
    is shown and the table is left alone, or the row is stored, the
    category field then holds the suggestion for the description and the
    window is refreshed.  When [float] gives an infinity or NaN the program
    stores the row all the same; such an amount is none the table of this
    model can hold, so the result then is just that value. *)
Definition add_expense (desc amt cat today : string) (d : Sql.db)
  : Sql.db * (messagebox + string * window) + Py.nonfinite :=
  if negb (Py.truthy desc) || negb (Py.truthy amt) then
    inl (d, inl (showwarning "Warning"
                             "Description and amount are required."))
  else
    match Py.float amt with
    | None => inl (d, inl (showerror "Error" "Amount must be a number."))
    | Some (Py.finite a) =>
        let d' := fst (Sql.insert today desc a cat d) in
        inl (d', inr (suggest_category desc, refresh_table d'))
    | Some (Py.special x) => inr x
    end.

(** [delete_expense], on the focused row of the tree, if there is one. *)
Definition delete_expense (selected : option Sql.expense) (d : Sql.db)
  : Sql.db * (messagebox + window) :=
  match selected with
  | None => (d, inl (showwarning "Warning" "Select an expense to delete."))
  | Some item =>
      let d' := Sql.delete_where_id (Sql.id item) d in
      (d', inr (refresh_table d'))
  end.

(** [show_chart]: the categories and amounts handed to the bar chart. *)
Definition show_chart (d : Sql.db) : messagebox + list string * list Q :=
  match Sql.select_category_sum_group_by_category d with
  | [] => inl (showinfo "Info" "No data to display.")
  | data => inr (map fst data, map snd data)
  end.

(** What the user does on the window: press "Add" with the three entry
    texts on a given day, or press "Delete" with a row focused or none. *)
Inductive event :=
| Add (desc amt cat today : string)
| DeleteFocused (selected : option Sql.expense).

(** The table after an event; [None] when an amount that is not finite
    was stored. *)
Definition handle (e : event) (d : Sql.db) : option Sql.db :=
  match e with
  | Add desc amt cat today =>
      match add_expense desc amt cat today d with
      | inl (d', _) => Some d'
      | inr _ => None
      end
  | DeleteFocused selected => Some (fst (delete_expense selected d))
  end.

(** A run of the program: the events in order, as far as the table stays
    within the model. *)
Fixpoint session (events : list event) (d : Sql.db) : option Sql.db :=
  match events with
  | [] => Some d
  | e :: rest =>
      match handle e d with
      | Some d' => session rest d'
      | None => None
      end
  end.

End V2.

(** ** Variant 3: the browser program *)

Module V3.

Definition suggest_category (description : string) : string :=
  let desc := Py.lower description in
  if Py.any_in ["pizza"; "food"; "coffee"; "restaurant"; "snack"] desc then
    "Food"
  else if Py.any_in ["uber"; "bus"; "train"; "petrol"; "cab"] desc then
    "Travel"
  else if Py.any_in ["bill"; "recharge"; "rent"; "electricity"] desc then
    "Bills"
  else if Py.any_in ["doctor"; "medicine"; "hospital"; "pharmacy"] desc then
    "Health"
  else if Py.any_in ["amazon"; "clothes"; "mall"; "shopping"] desc then
    "Shopping"
  else
    "Miscellaneous".

Definition keyword_groups : list (string * list string) :=
  [("Food", ["pizza"; "food"; "coffee"; "restaurant"; "snack"]);
   ("Travel", ["uber"; "bus"; "train"; "petrol"; "cab"]);
   ("Bills", ["bill"; "recharge"; "rent"; "electricity"]);
   ("Health", ["doctor"; "medicine"; "hospital"; "pharmacy"]);
   ("Shopping", ["amazon"; "clothes"; "mall"; "shopping"])].

(** [add_expense(desc, amt, cat)]; returns nothing. *)
Definition add_expense (desc : string) (amt : Q) (cat today : string)
  (d : Sql.db) : Sql.db * unit :=
  (fst (Sql.insert today desc amt cat d), tt).

(** [delete_expense(expense_id)]; returns nothing. *)
Definition delete_expense (expense_id : Z) (d : Sql.db) : Sql.db * unit :=
  (Sql.delete_where_id expense_id d, tt).

(** [get_all_expenses()]: the data frame, row by row. *)
Definition get_all_expenses (d : Sql.db) : list Sql.expense :=
  Sql.select_all_order_by_id_desc d.

(** A status element of the page. *)
Inductive status :=
| success (body : string)
| warning (body : string)
| info (body : string).

(** The suggestion the "Add Expense" tab pre-fills the category with:
    [suggest_category(desc) if desc else ""]. *)
Definition suggested (desc : string) : string :=
  if Py.truthy desc then suggest_category desc else "".

(** The "Add Expense" tab when its button is pressed.  The number input is
    declared with [min_value=0.0]; the handler itself asks for [amt > 0]. *)
Definition add_expense_tab (desc : string) (amt : Q) (cat today : string)
  (d : Sql.db) : Sql.db * status :=
  if Py.truthy desc && Py.gt amt 0 then
    (fst (add_expense desc amt cat today d),
     success "Expense added successfully!")
  else (d, warning "Enter valid description and amount.").

(** The "View Expenses" tab when "Delete Selected" is pressed; [delete_id]
    is the choice of the select box, [None] for its entry "None". *)
Definition view_expenses_tab (delete_id : option Z) (d : Sql.db)
  : Sql.db * option status :=
  match get_all_expenses d with
  | [] => (d, Some (info "No expenses recorded yet."))
  | _ =>
      match delete_id with
      | Some i =>
          (fst (delete_expense i d),
           Some (success "Expense deleted successfully!"))
      | None => (d, None)
      end
  end.

(** [df["amount"].sum()] *)
Definition total_spent (df : list Sql.expense) : Q :=
  Py.sum (map Sql.amount df).

(** [df.groupby("category")["amount"].sum().sort_values(ascending=False)].
    The default sort of pandas is not stable, so the order among categories
    with equal sums is not fixed by the code; here they stay in group
    order, and nothing below rests on that. *)
Definition cat_data (df : list Sql.expense) : list (string * Q) :=
  Py.sort_by (fun a b => Qle_bool (snd b) (snd a))
             (Sql.group_sum Sql.category df).

(** [df.groupby("date")["amount"].sum()] *)
Definition daily_data (df : list Sql.expense) : list (string * Q) :=
  Sql.group_sum Sql.date df.

(** The "Reports" tab: the total and the two series that are charted, or
    the notice shown over an empty frame.  The two other metrics of the tab,
    the daily average and the category with the highest sum, are left
    out. *)
Definition reports_tab (d : Sql.db)
  : status + Q * list (string * Q) * list (string * Q) :=
  match get_all_expenses d with
  | [] => inl (info "No data available for visualization.")
  | df => inr (total_spent df, cat_data df, daily_data df)
  end.

(** [df.groupby("date")["amount"].sum().mean()] *)
Definition daily_avg (df : list Sql.expense) : option Q :=
  Py.mean (map snd (Sql.group_sum Sql.date df)).

(** [df.groupby("category")["amount"].sum().idxmax()] *)
Definition highest_cat (df : list Sql.expense) : option string :=
  Py.idxmax (Sql.group_sum Sql.category df).

(** The three metrics on top of the "Reports" tab: total spent, daily
    average, highest spending category; or the notice over an empty
    frame. *)
Definition metrics (d : Sql.db) : status + Q * option Q * option string :=
  match get_all_expenses d with
  | [] => inl (info "No data available for visualization.")
  | df => inr (total_spent df, daily_avg df, highest_cat df)
  end.

(** The entries of the select box:
    [["None"] + [str(i) for i in ids]]. *)
Definition select_options (df : list Sql.expense) : list string :=
  "None" :: map Py.str (map Sql.id df).

(** The "View Expenses" tab when "Delete Selected" is pressed, on the text
    the select box holds; the outer [None] stands for the [ValueError] of
    [int(delete_id)]. *)
Definition delete_selected (delete_id : string) (d : Sql.db)
  : option (Sql.db * option status) :=
  match get_all_expenses d with
  | [] => Some (d, Some (info "No expenses recorded yet."))
  | _ =>
      if negb (delete_id =? "None") then
        match Py.int delete_id with
        | Some i =>
            Some (fst (delete_expense i d),
                  Some (success "Expense deleted successfully!"))
        | None => None
        end
      else Some (d, None)
  end.

(** What the user does on the page: press "Add Expense" with the form
    filled in on a given day, or press "Delete Selected" with a choice
    made in the select box. *)
Inductive event :=
| AddExpense (desc : string) (amt : Q) (cat today : string)
| DeleteSelected (delete_id : option Z).

Definition handle (e : event) (d : Sql.db) : Sql.db :=
  match e with
  | AddExpense desc amt cat today =>
      fst (add_expense_tab desc amt cat today d)
  | DeleteSelected delete_id => fst (view_expenses_tab delete_id d)
  end.

(** A run of the program: the events in order. *)
Definition session (events : list event) (d : Sql.db) : Sql.db :=
  fold_left (fun d e => handle e d) events d.

End V3.

(** ** A sample history *)

Module Sample.

(** Three rows stored on two days, the second of them deleted again. *)
Definition history : list Sql.statement :=
  [Sql.Insert "2024-01-01" "Pizza night" 450 "Food";
   Sql.Insert "2024-01-01" "bus" (7 # 2) "Travel";
   Sql.Delete 2;
   Sql.Insert "2024-01-02" "coffee" (5 # 2) "Food"].

Definition db : Sql.db := fst (Sql.run history Sql.empty).

Definition pizza : Sql.expense :=
  Sql.mkExpense 1 "2024-01-01" "Pizza night" 450 "Food".

Definition coffee : Sql.expense :=
  Sql.mkExpense 3 "2024-01-02" "coffee" (5 # 2) "Food".

End Sample.

(** * Properties *)

(** ** Substring search and lower-casing *)

Section Strings.

Lemma prefix_iff (x d : string) :
  String.prefix x d = true <-> exists post, d = x ++ post.
Proof.
  revert d; induction x as [|c x IH]; intros d; simpl.
  - split; [intros _; now exists d | intros _; now destruct d].
  - destruct d as [|c' d]; simpl.
    + split; [discriminate | intros [post H]; discriminate].
    + destruct (ascii_dec c c') as [->|Hne].
      * rewrite IH. split; intros [post H]; exists post.
        -- now rewrite H.
        -- now inversion H.
      * split; [discriminate | intros [post H]; inversion H; congruence].
Qed.

Lemma prefix_empty (x : string) :
  String.prefix x EmptyString = true <-> x = EmptyString.
Proof.
  destruct x; simpl; split; congruence.
Qed.

Lemma str_in_iff (x d : string) :
  Py.str_in x d = true <-> exists pre post, d = pre ++ x ++ post.
Proof.
  induction d as [|c d IH]; cbn [Py.str_in].
  - rewrite prefix_empty. split.
    + intros ->. now exists EmptyString, EmptyString.
    + intros (pre & post & H).
      destruct pre; simpl in H; [|discriminate].
      destruct x; [reflexivity | discriminate].
  - rewrite orb_true_iff, IH, (prefix_iff x (String c d)). split.
    + intros [[post H] | (pre & post & H)].
      * exists EmptyString, post. exact H.
      * exists (String c pre), post. simpl. now rewrite H.
    + intros (pre & post & H). destruct pre as [|c' pre]; simpl in H.
      * left. now exists post.
      * right. exists pre, post. now inversion H.
Qed.

Lemma lower_app (a b : string) :
  Py.lower (a ++ b) = Py.lower a ++ Py.lower b.
Proof.
  induction a as [|c a IH]; simpl; [reflexivity | now rewrite IH].
Qed.

Lemma lower_split (d x y : string) :
  Py.lower d = x ++ y ->
  exists d1 d2, d = d1 ++ d2 /\ Py.lower d1 = x /\ Py.lower d2 = y.
Proof.
  revert d; induction x as [|c x IH]; intros d H; simpl in H.
  - now exists EmptyString, d.
  - destruct d as [|c' d]; simpl in H; [discriminate|].
    inversion H as [[Hc Ht]].
    destruct (IH d Ht) as (d1 & d2 & -> & H1 & H2).
    exists (String c' d1), d2. simpl. now rewrite H1, H2.
Qed.

Lemma str_in_lower_iff (k d : string) :
  Py.str_in k (Py.lower d) = true <-> Spec.occurs_nocase k d.
Proof.
  rewrite str_in_iff. unfold Spec.occurs_nocase. split.
  - intros (pre & post & H).
    destruct (lower_split _ _ _ H) as (d1 & d2 & -> & _ & H2).
    destruct (lower_split _ _ _ H2) as (w & d3 & -> & Hw & _).
    now exists d1, w, d3.
  - intros (pre & w & post & -> & Hw).
    exists (Py.lower pre), (Py.lower post).
    now rewrite !lower_app, Hw.
Qed.

Lemma any_in_lower_iff (words : list string) (d : string) :
  Py.any_in words (Py.lower d) = true <-> Spec.mentions words d.
Proof.
  unfold Py.any_in, Spec.mentions. rewrite existsb_exists.
  split; intros (k & Hin & Hk); exists k; split; trivial;
    now apply str_in_lower_iff.
Qed.

Lemma any_in_lower_false (words : list string) (d : string) :
  Py.any_in words (Py.lower d) = false <-> ~ Spec.mentions words d.
Proof.
  rewrite <- any_in_lower_iff. destruct (Py.any_in _ _); split; congruence.
Qed.

End Strings.

(** ** The matching routine *)

Section FirstMatch.

Lemma first_match_hit (pre post : list (string * list string))
  (label : string) (words : list string) (d : string) :
  Spec.mentions words d ->
  Spec.mentions_none pre d ->
  Spec.first_match (pre ++ (label, words) :: post)%list (Py.lower d) = label.
Proof.
  intros Hhit. induction pre as [|[l w] pre IH]; intros Hmiss; simpl.
  - apply any_in_lower_iff in Hhit. now rewrite Hhit.
  - assert (Hw : Py.any_in w (Py.lower d) = false).
    { apply any_in_lower_false, (Hmiss l w). now left. }
    rewrite Hw. apply IH. intros l' w' Hin. apply (Hmiss l' w'). now right.
Qed.

Lemma first_match_miss (groups : list (string * list string)) (d : string) :
  Spec.mentions_none groups d ->
  Spec.first_match groups (Py.lower d) = "Miscellaneous".
Proof.
  induction groups as [|[l w] groups IH]; intros Hmiss; simpl.
  - reflexivity.
  - assert (Hw : Py.any_in w (Py.lower d) = false).
    { apply any_in_lower_false, (Hmiss l w). now left. }
    rewrite Hw. apply IH. intros l' w' Hin. apply (Hmiss l' w'). now right.
Qed.

Lemma V2_suggest_category_first_match (d : string) :
  V2.suggest_category d = Spec.first_match V2.keyword_groups (Py.lower d).
Proof. reflexivity. Qed.

Lemma V3_suggest_category_first_match (d : string) :
  V3.suggest_category d = Spec.first_match V3.keyword_groups (Py.lower d).
Proof. reflexivity. Qed.

End FirstMatch.

(** ** Category inference *)

Section Categorizer.

Lemma mentions_none_computed (groups : list (string * list string))
  (d : string) :
  forallb (fun g => negb (Py.any_in (snd g) (Py.lower d))) groups = true ->
  Spec.mentions_none groups d.
Proof.
  rewrite forallb_forall. intros H label words Hin.
  apply any_in_lower_false. specialize (H _ Hin). simpl in H.
  now destruct (Py.any_in words (Py.lower d)).
Qed.

Lemma mentions_computed (words : list string) (d : string) :
  Py.any_in words (Py.lower d) = true -> Spec.mentions words d.
Proof. apply any_in_lower_iff. Qed.

Lemma V2_food_iff (d : string) :
  V2.suggest_category d = "Food" <->
  Spec.mentions ["pizza"; "food"; "coffee"; "lunch"; "restaurant"] d.
Proof.
  rewrite <- any_in_lower_iff. unfold V2.suggest_category.
  repeat match goal with
         | |- context [if ?b then _ else _] => destruct b
         end; split; congruence.
Qed.

Lemma V3_food_iff (d : string) :
  V3.suggest_category d = "Food" <->
  Spec.mentions ["pizza"; "food"; "coffee"; "restaurant"; "snack"] d.
Proof.
  rewrite <- any_in_lower_iff. unfold V3.suggest_category.
  repeat match goal with
         | |- context [if ?b then _ else _] => destruct b
         end; split; congruence.
Qed.

Lemma first_group_wins_first_match (groups : list (string * list string))
  (sc : string -> string) :
  (forall d, sc d = Spec.first_match groups (Py.lower d)) ->
  Spec.first_group_wins groups sc.
Proof.
  intros Hsc. split.
  - intros d pre label words post -> Hhit Hmiss.
    rewrite Hsc. now apply first_match_hit.
  - intros d Hmiss. rewrite Hsc. now apply first_match_miss.
Qed.

(** C1, as the specification states it, fails in both variants: the desktop
    variant does not know the word snack and the browser variant does not
    know the word lunch, so neither follows the Food rule for the six words
    of the specification. *)
Lemma food_six_words_counterexample :
  ~ Spec.food_rule Spec.Food V2.suggest_category /\
  ~ Spec.food_rule Spec.Food V3.suggest_category.
Proof.
  split; intros H.
  - specialize (H "Evening Snack").
    assert (E : V2.suggest_category "Evening Snack" = "Food").
    { apply H; [now apply mentions_computed
               | now apply mentions_none_computed]. }
    vm_compute in E. discriminate E.
  - specialize (H "Team LUNCH").
    assert (E : V3.suggest_category "Team LUNCH" = "Food").
    { apply H; [now apply mentions_computed
               | now apply mentions_none_computed]. }
    vm_compute in E. discriminate E.
Qed.

(** C1, amended: each variant tests five Food words, the six of the
    specification without snack (desktop) or without lunch (browser); a
    description is classified Food exactly when it contains one of the
    variant's five words in some letter case, so in particular when it also
    contains no keyword of another group.  The other four groups hold the
    keywords the specification lists, the browser variant in another
    order. *)
Theorem food_five_words :
  (map snd (firstn 1 V2.keyword_groups)
     = [remove string_dec "snack" Spec.Food] /\
   skipn 1 V2.keyword_groups = skipn 1 Spec.keyword_groups /\
   (forall d, V2.suggest_category d = "Food" <->
              Spec.mentions (remove string_dec "snack" Spec.Food) d) /\
   Spec.food_rule (remove string_dec "snack" Spec.Food) V2.suggest_category)
  /\
  (map snd (firstn 1 V3.keyword_groups)
     = [remove string_dec "lunch" Spec.Food] /\
   Forall2 (fun g g' => fst g = fst g' /\ Permutation (snd g) (snd g'))
           (skipn 1 V3.keyword_groups) (skipn 1 Spec.keyword_groups) /\
   (forall d, V3.suggest_category d = "Food" <->
              Spec.mentions (remove string_dec "lunch" Spec.Food) d) /\
   Spec.food_rule (remove string_dec "lunch" Spec.Food) V3.suggest_category).
Proof.
  split.
  - split; [reflexivity|]. split; [reflexivity|].
    split; [exact V2_food_iff|].
    intros d Hd _. now apply V2_food_iff.
  - split; [reflexivity|]. split.
    { unfold V3.keyword_groups, Spec.keyword_groups; cbn [skipn].
      repeat first [apply Forall2_cons | apply Forall2_nil];
        (split; [reflexivity|]); cbn [snd].
      - reflexivity.
      - apply (Permutation_cons_app ["rent"] ["recharge"; "electricity"]).
        apply (Permutation_cons_app ["rent"] ["electricity"]).
        reflexivity.
      - apply perm_skip.
        apply (Permutation_cons_app ["pharmacy"] ["hospital"]).
        apply perm_swap.
      - reflexivity. }
    split; [exact V3_food_iff|].
    intros d Hd _. now apply V3_food_iff.
Qed.

Lemma food_five_words_witness :
  V2.suggest_category "Team LUNCH" = "Food" /\
  V3.suggest_category "Evening Snack" = "Food".
Proof.
  split.
  - apply (proj2 (proj2 (proj2 (proj1 food_five_words)))).
    + now apply mentions_computed.
    + now apply mentions_none_computed.
  - apply (proj2 (proj2 (proj2 (proj2 food_five_words)))).
    + now apply mentions_computed.
    + now apply mentions_none_computed.
Defined.

(** C3: in both variants [suggest_category] is a function of the
    description that tries the groups in the order Food, Travel, Bills,
    Health, Shopping: a description with a keyword of one group and none of
    an earlier group gets that group's label, and a description with no
    keyword at all, the empty one included, gets Miscellaneous. *)
Theorem suggest_category_priority_order :
  (map fst V2.keyword_groups
     = ["Food"; "Travel"; "Bills"; "Health"; "Shopping"] /\
   Spec.first_group_wins V2.keyword_groups V2.suggest_category /\
   V2.suggest_category "" = "Miscellaneous") /\
  (map fst V3.keyword_groups
     = ["Food"; "Travel"; "Bills"; "Health"; "Shopping"] /\
   Spec.first_group_wins V3.keyword_groups V3.suggest_category /\
   V3.suggest_category "" = "Miscellaneous").
Proof.
  split; (split; [reflexivity|]); (split; [|reflexivity]).
  - apply first_group_wins_first_match, V2_suggest_category_first_match.
  - apply first_group_wins_first_match, V3_suggest_category_first_match.
Qed.

Lemma suggest_category_priority_order_witness :
  V2.suggest_category "Bus to the doctor" = "Travel" /\
  V3.suggest_category "Rent a cab" = "Travel" /\
  V3.suggest_category "xyz" = "Miscellaneous".
Proof.
  destruct suggest_category_priority_order as [(_ & [H2 _] & _) (_ & [H3 M3] & _)].
  split; [|split].
  - apply (H2 "Bus to the doctor" (firstn 1 V2.keyword_groups) "Travel"
              ["uber"; "bus"; "train"; "petrol"; "cab"]
              (skipn 2 V2.keyword_groups)).
    + reflexivity.
    + now apply mentions_computed.
    + now apply mentions_none_computed.
  - apply (H3 "Rent a cab" (firstn 1 V3.keyword_groups) "Travel"
              ["uber"; "bus"; "train"; "petrol"; "cab"]
              (skipn 2 V3.keyword_groups)).
    + reflexivity.
    + now apply mentions_computed.
    + now apply mentions_none_computed.
  - apply M3. now apply mentions_none_computed.
Defined.

End Categorizer.

(** ** Sorting *)

Section SortingFacts.

Context {A : Type}.
Variable leb : A -> A -> bool.

Lemma insert_sorted_perm (x : A) (l : list A) :
  Permutation (Py.insert_sorted leb x l) (x :: l).
Proof.
  induction l as [|y t IH]; simpl.
  - reflexivity.
  - destruct (leb x y).
    + reflexivity.
    + rewrite IH. apply perm_swap.
Qed.

Lemma sort_by_perm (l : list A) : Permutation (Py.sort_by leb l) l.
Proof.
  induction l as [|x l IH]; simpl.
  - reflexivity.
  - rewrite insert_sorted_perm. now apply perm_skip.
Qed.

Lemma sort_by_in (l : list A) (x : A) : In x (Py.sort_by leb l) <-> In x l.
Proof.
  split; apply Permutation_in;
    [apply sort_by_perm | apply Permutation_sym, sort_by_perm].
Qed.

Lemma sort_by_nil (l : list A) : Py.sort_by leb l = [] <-> l = [].
Proof.
  split; intros H.
  - apply Permutation_nil. rewrite <- H. apply sort_by_perm.
  - now subst.
Qed.

(** An element that comes after every element of an ordered list is put at
    its end. *)
Lemma insert_sorted_last (x : A) (l : list A) :
  Forall (fun y => leb x y = false) l ->
  Py.insert_sorted leb x l = (l ++ [x])%list.
Proof.
  induction 1 as [|y t Hy _ IH]; simpl.
  - reflexivity.
  - now rewrite Hy, IH.
Qed.

(** An element that comes before every other one: sorting with it stored
    last puts it in front and leaves the rest as sorted without it. *)
Lemma sort_by_snoc_first (x : A) (l : list A) :
  Forall (fun y => leb y x = false) l ->
  Py.sort_by leb (l ++ [x])%list = x :: Py.sort_by leb l.
Proof.
  unfold Py.sort_by. rewrite fold_right_app. cbn [fold_right Py.insert_sorted].
  induction 1 as [|y t Hy _ IH]; cbn [fold_right].
  - reflexivity.
  - rewrite IH. cbn [Py.insert_sorted]. now rewrite Hy.
Qed.

Hypothesis leb_total : forall a b, leb a b = false -> leb b a = true.

Lemma insert_sorted_sorted (x : A) (l : list A) :
  Sorted (fun a b => leb a b = true) l ->
  Sorted (fun a b => leb a b = true) (Py.insert_sorted leb x l).
Proof.
  induction 1 as [|y t Ht IH Hy]; simpl.
  - repeat constructor.
  - destruct (leb x y) eqn:E.
    + repeat constructor; trivial.
    + constructor; [exact IH|].
      destruct Hy as [|z t' Hz]; simpl.
      * constructor. now apply leb_total.
      * destruct (leb x z); constructor; trivial. now apply leb_total.
Qed.

Lemma sort_by_sorted (l : list A) :
  Sorted (fun a b => leb a b = true) (Py.sort_by leb l).
Proof.
  induction l as [|x l IH]; simpl.
  - constructor.
  - now apply insert_sorted_sorted.
Qed.

End SortingFacts.

(** ** Sums of amounts *)

Section Sums.

Lemma sum_app (xs ys : list Q) :
  Py.sum (xs ++ ys)%list == Py.sum xs + Py.sum ys.
Proof.
  induction xs as [|x xs IH]; simpl.
  - ring.
  - rewrite IH. ring.
Qed.

Lemma sum_perm (xs ys : list Q) :
  Permutation xs ys -> Py.sum xs == Py.sum ys.
Proof.
  induction 1 as [|x xs ys _ IH|x y xs|xs ys zs _ IH1 _ IH2]; simpl.
  - reflexivity.
  - now rewrite IH.
  - ring.
  - now rewrite IH1.
Qed.

Lemma sum_map_ext {K : Type} (f g : K -> Q) (ks : list K) :
  (forall k, In k ks -> f k == g k) ->
  Py.sum (map f ks) == Py.sum (map g ks).
Proof.
  induction ks as [|k ks IH]; intros H; simpl.
  - reflexivity.
  - rewrite (H k (or_introl eq_refl)), IH; [reflexivity|].
    intros k' Hk'. apply H. now right.
Qed.

Lemma sum_map_plus {K : Type} (f g : K -> Q) (ks : list K) :
  Py.sum (map (fun k => f k + g k) ks)
  == Py.sum (map f ks) + Py.sum (map g ks).
Proof.
  induction ks as [|k ks IH]; simpl.
  - ring.
  - rewrite IH. ring.
Qed.

Lemma sum_map_zero {K : Type} (f : K -> Q) (ks : list K) :
  (forall k, In k ks -> f k == 0) -> Py.sum (map f ks) == 0.
Proof.
  induction ks as [|k ks IH]; intros H; simpl.
  - reflexivity.
  - rewrite (H k (or_introl eq_refl)), IH; [ring|].
    intros k' Hk'. apply H. now right.
Qed.

(** Over keys without repetition, an amount counted at one key only is
    counted once. *)
Lemma sum_map_at_key (a : Q) (k0 : string) (ks : list string) :
  NoDup ks -> In k0 ks ->
  Py.sum (map (fun k => if k0 =? k then a else 0) ks) == a.
Proof.
  induction 1 as [|k ks Hk Hnd IH]; intros Hin; simpl.
  - destruct Hin.
  - destruct (String.eqb_spec k0 k) as [->|Hne].
    + rewrite sum_map_zero; [ring|].
      intros k' Hk'. destruct (String.eqb_spec k k') as [->|_];
        [contradiction | reflexivity].
    + destruct Hin as [->|Hin]; [congruence|]. rewrite IH by trivial. ring.
Qed.

Lemma group_sum_over_keys (key : Sql.expense -> string)
  (rows : list Sql.expense) (ks : list string) :
  NoDup ks -> (forall r, In r rows -> In (key r) ks) ->
  Py.sum (map (fun k =>
                 Py.sum (map Sql.amount
                             (filter (fun r => key r =? k) rows))) ks)
  == Py.sum (map Sql.amount rows).
Proof.
  intros Hnd. induction rows as [|r rows IH]; intros Hks; simpl.
  - apply sum_map_zero. reflexivity.
  - rewrite <- IH by (intros r' Hr'; apply Hks; now right).
    rewrite <- (sum_map_at_key (Sql.amount r) (key r) ks Hnd)
      by (apply Hks; now left).
    rewrite <- sum_map_plus. apply sum_map_ext. intros k _.
    destruct (key r =? k); simpl; ring.
Qed.

Lemma group_sum_total (key : Sql.expense -> string)
  (rows : list Sql.expense) :
  Py.sum (map snd (Sql.group_sum key rows)) == Py.sum (map Sql.amount rows).
Proof.
  unfold Sql.group_sum. rewrite map_map. cbn [snd].
  apply group_sum_over_keys.
  - apply (Permutation_NoDup (Permutation_sym (sort_by_perm _ _))).
    apply NoDup_nodup.
  - intros r Hr. apply sort_by_in, nodup_In, in_map, Hr.
Qed.

End Sums.

(** ** The table and its invariant *)

Section Table.

Import Sql.

Lemma StronglySorted_snoc {A : Type} (R : A -> A -> Prop) (l : list A)
  (x : A) :
  StronglySorted R l -> Forall (fun y => R y x) l ->
  StronglySorted R (l ++ [x])%list.
Proof.
  induction 1 as [|y l Hl IH Hy]; intros Hx; simpl.
  - repeat constructor.
  - inversion Hx as [|? ? Hyx Hlx]; subst. constructor.
    + now apply IH.
    + apply Forall_app. split; [exact Hy | now constructor].
Qed.

Lemma StronglySorted_filter {A : Type} (R : A -> A -> Prop)
  (f : A -> bool) (l : list A) :
  StronglySorted R l -> StronglySorted R (filter f l).
Proof.
  induction 1 as [|y l Hl IH Hy]; simpl.
  - constructor.
  - destruct (f y); [|exact IH]. constructor; [exact IH|].
    rewrite Forall_forall in *. intros z Hz. apply Hy.
    now apply filter_In in Hz.
Qed.

Lemma StronglySorted_rev {A : Type} (R : A -> A -> Prop) (l : list A) :
  StronglySorted R l -> StronglySorted (fun a b => R b a) (rev l).
Proof.
  induction 1 as [|y l Hl IH Hy]; simpl.
  - constructor.
  - apply StronglySorted_snoc; [exact IH|].
    rewrite Forall_forall in *. intros z Hz. apply Hy. now apply in_rev.
Qed.

Lemma max_rowid_le (rows : list expense) (s : Z) :
  (0 <= s)%Z -> Forall (fun r => (0 < id r <= s)%Z) rows ->
  (max_rowid rows <= s)%Z.
Proof.
  intros Hs. induction 1 as [|r rows Hr _ IH]; simpl; lia.
Qed.

Lemma insert_lastrowid (dt desc : string) (amt : Q) (cat : string) (d : db) :
  consistent d ->
  insert dt desc amt cat d
  = ({| expenses :=
          (expenses d
             ++ [mkExpense (sqlite_sequence d + 1) dt desc amt cat])%list;
        sqlite_sequence := (sqlite_sequence d + 1)%Z |},
     (sqlite_sequence d + 1)%Z).
Proof.
  intros (_ & Hb & Hs). unfold insert.
  pose proof (max_rowid_le _ _ Hs Hb) as Hm.
  now replace (Z.max (max_rowid (expenses d)) (sqlite_sequence d))
    with (sqlite_sequence d) by lia.
Qed.

Lemma consistent_empty : consistent empty.
Proof. repeat split; simpl; (constructor || lia). Qed.

Lemma consistent_insert (dt desc : string) (amt : Q) (cat : string)
  (d : db) :
  consistent d -> consistent (fst (insert dt desc amt cat d)).
Proof.
  intros Hd. rewrite (insert_lastrowid _ _ _ _ _ Hd).
  destruct Hd as (Hsorted & Hb & Hs). cbn [fst]. repeat split; simpl.
  - apply StronglySorted_snoc; [exact Hsorted|].
    eapply Forall_impl; [|exact Hb]. simpl. intros r Hr. lia.
  - apply Forall_app. split.
    + eapply Forall_impl; [|exact Hb]. simpl. intros r Hr. lia.
    + repeat constructor; simpl; lia.
  - lia.
Qed.

Lemma consistent_delete (i : Z) (d : db) :
  consistent d -> consistent (delete_where_id i d).
Proof.
  intros (Hsorted & Hb & Hs). repeat split; simpl; trivial.
  - now apply StronglySorted_filter.
  - rewrite Forall_forall in *. intros r Hr. apply Hb.
    now apply filter_In in Hr.
Qed.

Lemma consistent_run (stmts : list statement) (d : db) :
  consistent d -> consistent (fst (run stmts d)).
Proof.
  revert d. induction stmts as [|[dt desc amt cat|i] rest IH]; intros d Hd.
  - exact Hd.
  - cbn [run]. destruct (insert dt desc amt cat d) as [d1 j] eqn:E.
    specialize (IH d1). destruct (run rest d1) as [d2 ids]. apply IH.
    change d1 with (fst (d1, j)). rewrite <- E. now apply consistent_insert.
  - cbn [run]. apply IH. now apply consistent_delete.
Qed.

Lemma reachable_consistent (d : db) : reachable d -> consistent d.
Proof.
  intros [stmts <-]. apply consistent_run, consistent_empty.
Qed.

Lemma run_app (stmts more : list statement) (d : db) :
  fst (run (stmts ++ more) d) = fst (run more (fst (run stmts d))).
Proof.
  revert d. induction stmts as [|[dt desc amt cat|i] rest IH]; intros d;
    cbn [app run].
  - reflexivity.
  - destruct (insert dt desc amt cat d) as [d1 j].
    specialize (IH d1).
    destruct (run (rest ++ more) d1), (run rest d1). exact IH.
  - apply IH.
Qed.

Lemma reachable_insert (dt desc : string) (amt : Q) (cat : string)
  (d : db) :
  reachable d -> reachable (fst (insert dt desc amt cat d)).
Proof.
  intros [stmts <-]. exists (stmts ++ [Insert dt desc amt cat])%list.
  rewrite run_app. reflexivity.
Qed.

Lemma reachable_delete (i : Z) (d : db) :
  reachable d -> reachable (delete_where_id i d).
Proof.
  intros [stmts <-]. exists (stmts ++ [Delete i])%list.
  rewrite run_app. reflexivity.
Qed.

(** Whatever the handlers of the two variants do to the table is a
    history of inserts and deletes. *)
Lemma handlers_keep_reachable (d : db) :
  reachable d ->
  (forall desc amt cat today d' out,
      V2.add_expense desc amt cat today d = inl (d', out) ->
      reachable d') /\
  (forall selected, reachable (fst (V2.delete_expense selected d))) /\
  (forall desc amt cat today,
      reachable (fst (V3.add_expense_tab desc amt cat today d))) /\
  (forall delete_id, reachable (fst (V3.view_expenses_tab delete_id d))).
Proof.
  intros Hd. repeat split.
  - intros desc amt cat today d' out. unfold V2.add_expense.
    destruct (_ || _); [intros H; inversion H; now subst|].
    destruct (Py.float amt) as [[a|x]|]; intros H; inversion H; subst;
      [now apply reachable_insert | exact Hd].
  - intros [item|]; [now apply reachable_delete | exact Hd].
  - intros desc amt cat today. unfold V3.add_expense_tab.
    destruct (_ && _); [now apply reachable_insert | exact Hd].
  - intros delete_id. unfold V3.view_expenses_tab.
    destruct (V3.get_all_expenses d); [exact Hd|].
    destruct delete_id; [now apply reachable_delete | exact Hd].
Qed.

(** Rows stored in key order are listed back to front. *)
Lemma sort_desc_of_ascending (rows : list expense) :
  StronglySorted (fun a b => (id a < id b)%Z) rows ->
  Py.sort_by (fun a b => (id b <=? id a)%Z) rows = rev rows.
Proof.
  induction 1 as [|r rows Hrows IH Hr]; simpl.
  - reflexivity.
  - rewrite IH. apply insert_sorted_last.
    rewrite Forall_forall in *. intros y Hy. apply in_rev in Hy.
    specialize (Hr y Hy). simpl in Hr. lia.
Qed.

Lemma select_all_rev (d : db) :
  consistent d -> select_all_order_by_id_desc d = rev (expenses d).
Proof.
  intros (Hsorted & _). now apply sort_desc_of_ascending.
Qed.

Lemma select_all_in (d : db) (r : expense) :
  In r (select_all_order_by_id_desc d) <-> In r (expenses d).
Proof. apply sort_by_in. Qed.

Lemma StronglySorted_lt_NoDup (l : list expense) :
  StronglySorted (fun a b => (id b < id a)%Z) l -> NoDup (map id l).
Proof.
  induction 1 as [|r l Hl IH Hr]; simpl; constructor; trivial.
  rewrite in_map_iff. intros (r' & E & Hin).
  rewrite Forall_forall in Hr. specialize (Hr r' Hin). simpl in Hr. lia.
Qed.

Lemma row_with_id_in (l : list expense) (r : expense) :
  NoDup (map id l) -> In r l -> row_with_id (id r) l = Some r.
Proof.
  unfold row_with_id. induction l as [|x l IH]; simpl; intros Hnd Hin.
  - destruct Hin.
  - inversion Hnd as [|? ? Hx Hl]; subst.
    destruct Hin as [->|Hin]; [now rewrite Z.eqb_refl|].
    destruct (Z.eqb_spec (id x) (id r)) as [E|_]; [|now apply IH].
    exfalso. apply Hx. rewrite E. now apply in_map.
Qed.

(** Two listings without repeated keys that hold the same rows under a key
    show the same row for it. *)
Lemma row_with_id_same (l l' : list expense) (j : Z) :
  NoDup (map id l) -> NoDup (map id l') ->
  (forall r, id r = j -> (In r l <-> In r l')) ->
  row_with_id j l = row_with_id j l'.
Proof.
  intros Hl Hl' Hsame.
  destruct (row_with_id j l) as [r|] eqn:E.
  - apply find_some in E. destruct E as [Hin Hid].
    apply Z.eqb_eq in Hid. subst j. symmetry.
    apply row_with_id_in; [exact Hl'|]. now apply Hsame.
  - destruct (row_with_id j l') as [r|] eqn:E'; [|reflexivity].
    apply find_some in E'. destruct E' as [Hin Hid].
    apply Z.eqb_eq in Hid. subst j.
    apply Hsame in Hin; [|reflexivity].
    rewrite (row_with_id_in _ _ Hl Hin) in E. discriminate E.
Qed.

Lemma consistent_listing_sorted (d : db) :
  consistent d ->
  StronglySorted (fun a b => (id b < id a)%Z) (select_all_order_by_id_desc d).
Proof.
  intros Hd. rewrite (select_all_rev _ Hd).
  apply (StronglySorted_rev (fun a b => (id a < id b)%Z)), Hd.
Qed.

End Table.

(** ** Validation on insert *)

Section Validation.

Lemma truthy_false (s : string) : Py.truthy s = false <-> s = "".
Proof. destruct s; simpl; split; congruence. Qed.

Lemma truthy_true (s : string) : Py.truthy s = true <-> s <> "".
Proof. destruct s; simpl; split; congruence. Qed.

Lemma gt_zero (a : Q) : Py.gt a 0 = true <-> 0 < a.
Proof.
  unfold Py.gt. rewrite negb_true_iff, <- not_true_iff_false, Qle_bool_iff.
  split; [apply Qnot_le_lt | apply Qlt_not_le].
Qed.

Lemma gt_zero_false (a : Q) : Py.gt a 0 = false <-> a <= 0.
Proof.
  unfold Py.gt. rewrite negb_false_iff. apply Qle_bool_iff.
Qed.


Lemma float_truthy (amt : string) (x : Py.pyfloat) :
  Py.float amt = Some x -> Py.truthy amt = true.
Proof.
  destruct amt; [discriminate | reflexivity].
Qed.

Lemma V2_add_expense_accepts (desc amt cat today : string) (d : Sql.db)
  (a : Q) :
  desc <> "" -> Py.float amt = Some (Py.finite a) ->
  V2.add_expense desc amt cat today d
  = inl (fst (Sql.insert today desc a cat d),
         inr (V2.suggest_category desc,
              V2.refresh_table (fst (Sql.insert today desc a cat d)))).
Proof.
  intros Hd Ha. unfold V2.add_expense.
  apply truthy_true in Hd. rewrite Hd, (float_truthy _ _ Ha), Ha.
  reflexivity.
Qed.


Lemma V3_add_expense_tab_rejects (desc : string) (amt : Q)
  (cat today : string) (d : Sql.db) :
  desc = "" \/ amt <= 0 <->
  V3.add_expense_tab desc amt cat today d
  = (d, V3.warning "Enter valid description and amount.").
Proof.
  unfold V3.add_expense_tab. split.
  - intros [->|Ha]; [reflexivity|].
    apply gt_zero_false in Ha. now rewrite Ha, andb_false_r.
  - destruct (Py.truthy desc) eqn:Hd; simpl.
    + destruct (Py.gt amt 0) eqn:Ha.
      * intros H. inversion H.
      * apply gt_zero_false in Ha. auto.
    + apply truthy_false in Hd. auto.
Qed.

Lemma V3_add_expense_tab_accepts (desc : string) (amt : Q)
  (cat today : string) (d : Sql.db) :
  desc <> "" -> 0 < amt ->
  V3.add_expense_tab desc amt cat today d
  = (fst (Sql.insert today desc amt cat d),
     V3.success "Expense added successfully!").
Proof.
  intros Hd Ha. unfold V3.add_expense_tab.
  apply truthy_true in Hd. apply gt_zero in Ha. now rewrite Hd, Ha.
Qed.

(** [float] on some amount texts: numerals with underscores, an exponent
    or surrounding whitespace are read; the values that are not finite are
    read in any letter case; a character that is no whitespace for [float],
    a misplaced underscore, a hexadecimal numeral or words are not. *)
Lemma float_samples :
  Py.float "1_000" = Some (Py.finite 1000) /\
  Py.float " 12.50 " = Some (Py.finite (1250 # 100)) /\
  Py.float "+.5e1" = Some (Py.finite 5) /\
  Py.float "nan" = Some (Py.special Py.nan) /\
  Py.float "-INF" = Some (Py.special (Py.infinity true)) /\
  Py.float " Infinity" = Some (Py.special (Py.infinity false)) /\
  Py.float (String (ascii_of_nat 28) "7") = None /\
  Py.float "1__0" = None /\
  Py.float "1_" = None /\
  Py.float "0x10" = None /\
  Py.float "1e" = None /\
  Py.float "." = None /\
  Py.float "twelve" = None.
Proof. repeat split; reflexivity. Qed.




End Validation.

(** ** Insert and listing *)

Section InsertListing.

Lemma listing_after_insert (d : Sql.db) (dt desc : string) (amt : Q)
  (cat : string) :
  Sql.consistent d ->
  Sql.select_all_order_by_id_desc (fst (Sql.insert dt desc amt cat d))
  = Sql.mkExpense (Sql.sqlite_sequence d + 1) dt desc amt cat
      :: Sql.select_all_order_by_id_desc d.
Proof.
  intros Hd.
  rewrite (select_all_rev _ (consistent_insert dt desc amt cat d Hd)).
  rewrite (select_all_rev _ Hd), (insert_lastrowid _ _ _ _ _ Hd).
  cbn [fst Sql.expenses]. now rewrite rev_app_distr.
Qed.

Lemma fresh_rowid (d : Sql.db) :
  Sql.consistent d ->
  ~ In (Sql.sqlite_sequence d + 1)%Z
       (map Sql.id (Sql.select_all_order_by_id_desc d)).
Proof.
  intros (_ & Hb & _). rewrite in_map_iff. intros (r & E & Hin).
  apply select_all_in in Hin. rewrite Forall_forall in Hb.
  specialize (Hb r Hin). simpl in Hb. lia.
Qed.

Lemma max_rowid_ge (rows : list Sql.expense) :
  Forall (fun r => (Sql.id r <= Sql.max_rowid rows)%Z) rows.
Proof.
  induction rows as [|r rows IH]; constructor; simpl.
  - lia.
  - eapply Forall_impl; [|exact IH]. simpl. intros r' Hr'. lia.
Qed.

Lemma lastrowid_above_rows (d : Sql.db) (dt desc : string) (amt : Q)
  (cat : string) :
  Forall (fun r => (Sql.id r < snd (Sql.insert dt desc amt cat d))%Z)
         (Sql.expenses d).
Proof.
  eapply Forall_impl; [|apply max_rowid_ge]. simpl. intros r Hr. lia.
Qed.

Lemma listing_after_insert_any (d : Sql.db) (dt desc : string) (amt : Q)
  (cat : string) :
  Sql.select_all_order_by_id_desc (fst (Sql.insert dt desc amt cat d))
  = Sql.mkExpense (snd (Sql.insert dt desc amt cat d)) dt desc amt cat
      :: Sql.select_all_order_by_id_desc d.
Proof.
  unfold Sql.select_all_order_by_id_desc.
  cbn [Sql.insert fst snd Sql.expenses].
  apply sort_by_snoc_first.
  eapply Forall_impl; [|apply (lastrowid_above_rows d dt desc amt cat)].
  cbn [Sql.insert snd Sql.id]. intros r Hr. lia.
Qed.

(** C4: in every state of the table, storing a row and listing again gives
    the earlier listing with one row put in front of it: the row holds the
    description, amount and category that were passed and the date of the
    day, and its key, the one the insert handed out, is none of the keys
    listed before.  This holds for [add_expense] of the browser variant,
    for its form whenever the form accepts the input, and for the desktop
    variant whenever [float] reads the amount text as a finite value. *)
Theorem insert_then_list_all (d : Sql.db) (desc : string) (amt : Q)
  (cat today : string) :
  let new :=
    Sql.mkExpense (snd (Sql.insert today desc amt cat d))
                  today desc amt cat in
  V3.get_all_expenses (fst (V3.add_expense desc amt cat today d))
  = new :: V3.get_all_expenses d /\
  ~ In (Sql.id new) (map Sql.id (V3.get_all_expenses d)) /\
  (Sql.reachable d -> Sql.id new = (Sql.sqlite_sequence d + 1)%Z) /\
  (desc <> "" -> 0 < amt ->
   V3.get_all_expenses (fst (V3.add_expense_tab desc amt cat today d))
   = new :: V3.get_all_expenses d) /\
  (forall amt_text,
      desc <> "" -> Py.float amt_text = Some (Py.finite amt) ->
      exists suggestion w,
        V2.add_expense desc amt_text cat today d
        = inl (fst (Sql.insert today desc amt cat d), inr (suggestion, w)) /\
        V2.tree w = new :: V2.tree (V2.refresh_table d)).
Proof.
  intros new.
  pose proof (listing_after_insert_any d today desc amt cat) as Hnew.
  split; [exact Hnew|]. split; [|split; [|split]].
  - unfold V3.get_all_expenses. rewrite in_map_iff. intros (r & E & Hin).
    apply select_all_in in Hin.
    pose proof (lastrowid_above_rows d today desc amt cat) as Hb.
    rewrite Forall_forall in Hb. specialize (Hb r Hin).
    subst new. cbn [Sql.id] in E. lia.
  - intros Hr. apply reachable_consistent in Hr. subst new. cbn [Sql.id].
    now rewrite (insert_lastrowid _ _ _ _ _ Hr).
  - intros Hd Ha. now rewrite (V3_add_expense_tab_accepts _ _ _ _ _ Hd Ha).
  - intros amt_text Hd Ha.
    rewrite (V2_add_expense_accepts _ _ _ _ _ _ Hd Ha).
    eexists _, _. split; [reflexivity|]. exact Hnew.
Qed.

Lemma sample_reachable : Sql.reachable Sample.db.
Proof. exists Sample.history. reflexivity. Qed.

Lemma insert_then_list_all_witness :
  V3.get_all_expenses
    (fst (V3.add_expense_tab "tea" 3 "Food" "2024-01-03" Sample.db))
  = Sql.mkExpense 4 "2024-01-03" "tea" 3 "Food"
      :: V3.get_all_expenses Sample.db.
Proof.
  apply (proj1 (proj2 (proj2 (proj2
           (insert_then_list_all Sample.db "tea" 3 "Food" "2024-01-03"))))).
  - discriminate.
  - reflexivity.
Defined.

End InsertListing.

(** ** Totals *)

Section Totals.

Lemma update_summary_sum (d : Sql.db) :
  V2.update_summary d == Py.sum (map Sql.amount (Sql.expenses d)).
Proof.
  unfold V2.update_summary, Sql.select_sum_amount.
  destruct (Sql.expenses d) as [|r rows]; [reflexivity|].
  destruct (Qeq_bool _ 0) eqn:E; [|reflexivity].
  apply Qeq_bool_iff in E. now rewrite E.
Qed.

Lemma listed_amounts_sum (d : Sql.db) :
  Py.sum (map Sql.amount (Sql.select_all_order_by_id_desc d))
  == Py.sum (map Sql.amount (Sql.expenses d)).
Proof.
  apply sum_perm, Permutation_map, sort_by_perm.
Qed.

(** C5: in every state of the database, so in every state a history of
    inserts and deletes leads to, the total equals the sum of the amounts
    of the rows the listing returns, and it is 0 when the listing is empty.
    The desktop variant computes it with [SELECT SUM(amount)] and shows 0
    for NULL; the browser variant sums the amount column of the listing,
    and its Reports tab shows that total whenever the listing is not
    empty. *)
Theorem total_is_sum_of_listed_amounts (d : Sql.db) :
  V2.total_label (V2.refresh_table d)
  == Py.sum (map Sql.amount (V2.tree (V2.refresh_table d))) /\
  V3.total_spent (V3.get_all_expenses d)
  == Py.sum (map Sql.amount (Sql.expenses d)) /\
  V2.update_summary d == V3.total_spent (V3.get_all_expenses d) /\
  (V3.get_all_expenses d = [] ->
   V2.update_summary d == 0 /\ V3.total_spent (V3.get_all_expenses d) == 0) /\
  match V3.reports_tab d with
  | inr (total, _, _) =>
      total == Py.sum (map Sql.amount (V3.get_all_expenses d))
  | inl _ => V3.get_all_expenses d = []
  end.
Proof.
  pose proof (update_summary_sum d) as H2.
  pose proof (listed_amounts_sum d) as Hl.
  split; [|split; [|split; [|split]]].
  - cbn [V2.refresh_table V2.total_label V2.tree]. now rewrite H2, Hl.
  - exact Hl.
  - unfold V3.total_spent, V3.get_all_expenses. now rewrite H2, Hl.
  - unfold V3.get_all_expenses. intros E.
    unfold V3.total_spent. rewrite E. split; [|reflexivity].
    apply sort_by_nil in E. now rewrite H2, E.
  - unfold V3.reports_tab.
    destruct (V3.get_all_expenses d); reflexivity.
Qed.

Lemma group_sum_keys_NoDup (key : Sql.expense -> string)
  (rows : list Sql.expense) :
  NoDup (map fst (Sql.group_sum key rows)).
Proof.
  unfold Sql.group_sum. rewrite map_map. cbn [fst]. rewrite map_id.
  apply (Permutation_NoDup (Permutation_sym (sort_by_perm _ _))).
  apply NoDup_nodup.
Qed.



End Totals.

(** ** Listing *)

Section Listing.

(** C7: on every reachable state the listing is a rearrangement of the
    stored rows, so it returns every row, and none twice; it runs by
    strictly falling key.  Keys rise with every insert, so this is the
    order from the row stored last to the row stored first, and a row just
    stored is the first one listed.  The desktop variant fills its table
    view with the same listing. *)
Theorem list_all_newest_first (d : Sql.db) :
  Sql.reachable d ->
  Permutation (V3.get_all_expenses d) (Sql.expenses d) /\
  NoDup (V3.get_all_expenses d) /\
  StronglySorted (fun a b => (Sql.id b < Sql.id a)%Z)
                 (V3.get_all_expenses d) /\
  V3.get_all_expenses d = rev (Sql.expenses d) /\
  V2.tree (V2.refresh_table d) = V3.get_all_expenses d /\
  (forall dt desc amt cat,
      hd_error (V3.get_all_expenses (fst (Sql.insert dt desc amt cat d)))
      = Some (Sql.mkExpense (Sql.sqlite_sequence d + 1) dt desc amt cat)).
Proof.
  intros Hr. apply reachable_consistent in Hr.
  pose proof (consistent_listing_sorted d Hr) as Hs.
  unfold V3.get_all_expenses. repeat split.
  - apply sort_by_perm.
  - apply (NoDup_map_inv Sql.id), StronglySorted_lt_NoDup, Hs.
  - exact Hs.
  - now apply select_all_rev.
  - intros dt desc amt cat. now rewrite listing_after_insert.
Qed.

Lemma list_all_newest_first_witness :
  Sql.reachable Sample.db /\
  V3.get_all_expenses Sample.db = rev (Sql.expenses Sample.db) /\
  V3.get_all_expenses Sample.db = [Sample.coffee; Sample.pizza].
Proof.
  pose proof (list_all_newest_first Sample.db sample_reachable)
    as (_ & _ & _ & Hrev & _).
  split; [exact sample_reachable|]. split; [exact Hrev|].
  rewrite Hrev. reflexivity.
Defined.

(** In any state of the table the listing runs by falling key. *)
Lemma listing_sorted_any (d : Sql.db) :
  Sorted (fun a b => (Sql.id b <= Sql.id a)%Z) (V3.get_all_expenses d).
Proof.
  unfold V3.get_all_expenses, Sql.select_all_order_by_id_desc.
  eapply Sorted_ind
    with (P := Sorted (fun a b => (Sql.id b <= Sql.id a)%Z));
    [constructor | | apply sort_by_sorted; intros a b H; lia].
  intros a l _ IH Hhd. constructor; [exact IH|].
  destruct Hhd as [|b l' Hb]; constructor. now apply Z.leb_le.
Qed.

End Listing.

(** ** Deletion *)

Section Deletion.

Lemma filter_keeps_all {A : Type} (f : A -> bool) (l : list A) :
  (forall x, In x l -> f x = true) -> filter f l = l.
Proof.
  induction l as [|x l IH]; intros H; simpl.
  - reflexivity.
  - rewrite (H x (or_introl eq_refl)), IH; [reflexivity|].
    intros y Hy. apply H. now right.
Qed.

Lemma delete_where_id_in (i : Z) (d : Sql.db) (r : Sql.expense) :
  In r (Sql.select_all_order_by_id_desc (Sql.delete_where_id i d)) <->
  In r (Sql.select_all_order_by_id_desc d) /\ Sql.id r <> i.
Proof.
  rewrite !select_all_in. cbn [Sql.delete_where_id Sql.expenses].
  rewrite filter_In, negb_true_iff, Z.eqb_neq. reflexivity.
Qed.

Lemma delete_where_id_twice (i : Z) (d : Sql.db) :
  Sql.delete_where_id i (Sql.delete_where_id i d) = Sql.delete_where_id i d.
Proof.
  unfold Sql.delete_where_id. cbn [Sql.expenses Sql.sqlite_sequence].
  f_equal. apply filter_keeps_all. intros r Hr. now apply filter_In in Hr.
Qed.

Lemma delete_where_id_absent (i : Z) (d : Sql.db) :
  (forall r, In r (Sql.select_all_order_by_id_desc d) -> Sql.id r <> i) ->
  Sql.delete_where_id i d = d.
Proof.
  intros H. destruct d as [rows s]. unfold Sql.delete_where_id.
  cbn [Sql.expenses Sql.sqlite_sequence]. f_equal.
  apply filter_keeps_all. intros r Hr.
  apply negb_true_iff, Z.eqb_neq, H, select_all_in, Hr.
Qed.

(** C8, as the specification states it, fails: neither variant reports
    whether a row was removed.  Deleting row 3 of the sample and deleting
    it once more give the very same result, in [delete_expense] of both
    variants and on the page of the browser variant, so no reading of the
    result tells the two calls apart. *)
Lemma delete_report_counterexample :
  let d1 := Sample.db in
  let d2 := Sql.delete_where_id 3 d1 in
  In Sample.coffee (Sql.select_all_order_by_id_desc d1) /\
  ~ In Sample.coffee (Sql.select_all_order_by_id_desc d2) /\
  ~ Spec.reports_removal (snd (V3.delete_expense 3 d1))
                         (snd (V3.delete_expense 3 d2)) /\
  ~ Spec.reports_removal (snd (V3.view_expenses_tab (Some 3%Z) d1))
                         (snd (V3.view_expenses_tab (Some 3%Z) d2)) /\
  ~ Spec.reports_removal (snd (V2.delete_expense (Some Sample.coffee) d1))
                         (snd (V2.delete_expense (Some Sample.coffee) d2)).
Proof.
  assert (same : forall (R : Type) (x y : R),
             x = y -> ~ Spec.reports_removal x y).
  { intros R x y -> (removed & H1 & H2). congruence. }
  cbv zeta. split; [vm_compute; left; reflexivity|]. split.
  - vm_compute. intros [H|[]]. discriminate H.
  - repeat split; apply same; reflexivity.
Qed.

(** C8, amended: deleting by key removes the row with that key and no
    other; deleting the same key again, or a key that is not in the table,
    changes nothing, and deletion has no failing case.  [delete_expense]
    returns nothing in either variant, so nothing is reported about whether
    a row was removed. *)
Theorem delete_is_idempotent (d : Sql.db) (i : Z) :
  let d1 := Sql.delete_where_id i d in
  (forall r, In r (V3.get_all_expenses d1) <->
             In r (V3.get_all_expenses d) /\ Sql.id r <> i) /\
  Sql.delete_where_id i d1 = d1 /\
  ((forall r, In r (V3.get_all_expenses d) -> Sql.id r <> i) -> d1 = d) /\
  V3.delete_expense i d = (d1, tt) /\
  V3.delete_expense i d1 = (d1, tt) /\
  (forall item,
      Sql.id item = i ->
      V2.delete_expense (Some item) d = (d1, inr (V2.refresh_table d1)) /\
      V2.delete_expense (Some item) d1 = (d1, inr (V2.refresh_table d1))).
Proof.
  intros d1. subst d1. split; [|split; [|split; [|split; [|split]]]].
  - intros r. apply delete_where_id_in.
  - apply delete_where_id_twice.
  - apply delete_where_id_absent.
  - reflexivity.
  - unfold V3.delete_expense. now rewrite delete_where_id_twice.
  - intros item <-. unfold V2.delete_expense.
    now rewrite delete_where_id_twice.
Qed.

Lemma delete_is_idempotent_witness :
  Sql.delete_where_id 7 Sample.db = Sample.db.
Proof.
  apply (proj1 (proj2 (proj2 (delete_is_idempotent Sample.db 7)))).
  intros r Hr. vm_compute in Hr.
  destruct Hr as [<-|[<-|[]]]; vm_compute; discriminate.
Defined.

End Deletion.

(** ** Keys *)

Section Keys.

Lemma run_insert (dt desc : string) (amt : Q) (cat : string)
  (rest : list Sql.statement) (d : Sql.db) :
  Sql.run (Sql.Insert dt desc amt cat :: rest) d
  = (fst (Sql.run rest (fst (Sql.insert dt desc amt cat d))),
     snd (Sql.insert dt desc amt cat d)
       :: snd (Sql.run rest (fst (Sql.insert dt desc amt cat d)))).
Proof.
  cbn [Sql.run]. destruct (Sql.insert dt desc amt cat d) as [d1 i].
  cbn [fst snd]. now destruct (Sql.run rest d1).
Qed.

(** From a state that satisfies the invariant, the keys a history hands
    out rise strictly and all lie above the counter the history started
    with and at most at the counter it ends with. *)
Lemma run_rowids (stmts : list Sql.statement) (d : Sql.db) :
  Sql.consistent d ->
  StronglySorted Z.lt (snd (Sql.run stmts d)) /\
  Forall (fun i => (Sql.sqlite_sequence d < i
                    <= Sql.sqlite_sequence (fst (Sql.run stmts d)))%Z)
         (snd (Sql.run stmts d)) /\
  (Sql.sqlite_sequence d <= Sql.sqlite_sequence (fst (Sql.run stmts d)))%Z.
Proof.
  revert d. induction stmts as [|[dt desc amt cat|i] rest IH]; intros d Hd.
  - simpl. repeat split; (constructor || lia).
  - rewrite run_insert. cbn [fst snd].
    destruct (IH _ (consistent_insert dt desc amt cat d Hd))
      as (Hs & Hb & Hle).
    rewrite (insert_lastrowid _ _ _ _ _ Hd) in *.
    cbn [fst snd Sql.sqlite_sequence] in *.
    repeat split.
    + constructor; [exact Hs|].
      eapply Forall_impl; [|exact Hb]. simpl. intros j Hj. lia.
    + constructor; [lia|].
      eapply Forall_impl; [|exact Hb]. simpl. intros j Hj. lia.
    + lia.
  - cbn [Sql.run]. apply (IH _ (consistent_delete i d Hd)).
Qed.

Lemma StronglySorted_Zlt_NoDup (l : list Z) :
  StronglySorted Z.lt l -> NoDup l.
Proof.
  induction 1 as [|x l Hl IH Hx]; constructor; trivial.
  intros Hin. rewrite Forall_forall in Hx. specialize (Hx x Hin). lia.
Qed.

(** C9: over every history of inserts and deletes on the empty table, the
    keys the inserts hand out, deleted rows included, rise strictly, so no
    key is handed out twice; and the key of one more insert is above every
    key handed out before and above every key in the table. *)
Theorem rowids_rise_and_are_never_reused (stmts : list Sql.statement) :
  StronglySorted Z.lt (snd (Sql.run stmts Sql.empty)) /\
  NoDup (snd (Sql.run stmts Sql.empty)) /\
  (forall dt desc amt cat,
      let d := fst (Sql.run stmts Sql.empty) in
      let i := snd (Sql.insert dt desc amt cat d) in
      Forall (fun j => (j < i)%Z) (snd (Sql.run stmts Sql.empty)) /\
      Forall (fun r => (Sql.id r < i)%Z) (Sql.expenses d)).
Proof.
  destruct (run_rowids stmts Sql.empty consistent_empty) as (Hs & Hb & _).
  split; [exact Hs|]. split; [now apply StronglySorted_Zlt_NoDup|].
  intros dt desc amt cat d i. subst d i.
  pose proof (consistent_run stmts Sql.empty consistent_empty) as Hd.
  rewrite (insert_lastrowid _ _ _ _ _ Hd). cbn [snd]. split.
  - eapply Forall_impl; [|exact Hb]. simpl. intros j Hj. lia.
  - destruct Hd as (_ & Hrows & _).
    eapply Forall_impl; [|exact Hrows]. simpl. intros r Hr. lia.
Qed.

End Keys.

(** ** What an operation leaves alone *)

Section Frame.

Lemma consistent_listing_NoDup (d : Sql.db) :
  Sql.consistent d ->
  NoDup (map Sql.id (Sql.select_all_order_by_id_desc d)).
Proof.
  intros Hd. apply StronglySorted_lt_NoDup, consistent_listing_sorted, Hd.
Qed.

Lemma row_with_id_delete (d : Sql.db) (i j : Z) :
  Sql.consistent d -> j <> i ->
  Sql.row_with_id j (Sql.select_all_order_by_id_desc
                       (Sql.delete_where_id i d))
  = Sql.row_with_id j (Sql.select_all_order_by_id_desc d).
Proof.
  intros Hd Hji. apply row_with_id_same.
  - apply consistent_listing_NoDup, consistent_delete, Hd.
  - apply consistent_listing_NoDup, Hd.
  - intros r Hr. rewrite delete_where_id_in. subst j. tauto.
Qed.

Lemma row_with_id_insert (d : Sql.db) (dt desc : string) (amt : Q)
  (cat : string) (j : Z) (r : Sql.expense) :
  Sql.consistent d ->
  Sql.row_with_id j (Sql.select_all_order_by_id_desc d) = Some r ->
  Sql.row_with_id j (Sql.select_all_order_by_id_desc
                       (fst (Sql.insert dt desc amt cat d)))
  = Some r.
Proof.
  intros Hd Hj. apply find_some in Hj. destruct Hj as [Hin Hid].
  apply Z.eqb_eq in Hid. subst j. apply row_with_id_in.
  - apply consistent_listing_NoDup, consistent_insert, Hd.
  - rewrite (listing_after_insert _ _ _ _ _ Hd). now right.
Qed.

Lemma V2_add_expense_db (desc amt cat today : string) (d d' : Sql.db)
  (out : V2.messagebox + string * V2.window) :
  V2.add_expense desc amt cat today d = inl (d', out) ->
  d' = d \/ exists a, d' = fst (Sql.insert today desc a cat d).
Proof.
  unfold V2.add_expense.
  destruct (_ || _); [intros H; inversion H; now left|].
  destruct (Py.float amt) as [[a|x]|]; intros H; inversion H.
  - right. now exists a.
  - now left.
Qed.

Lemma V3_add_expense_tab_db (desc : string) (amt : Q) (cat today : string)
  (d : Sql.db) :
  fst (V3.add_expense_tab desc amt cat today d) = d \/
  fst (V3.add_expense_tab desc amt cat today d)
  = fst (Sql.insert today desc amt cat d).
Proof.
  unfold V3.add_expense_tab. destruct (_ && _); [now right | now left].
Qed.

(** C10: on every reachable state, deleting by a key leaves the row listed
    under any other key as it is, with all its fields, also when the
    deletion comes from the handler of either variant; and adding an
    expense, in either variant and whether or not the input is accepted,
    leaves every listed row in the listing as it is (for the desktop
    variant: whenever the amount that is stored is finite).  The listing,
    the totals and the sums by category only read the table. *)
Theorem other_rows_untouched (d : Sql.db) :
  Sql.reachable d ->
  (forall i j,
      j <> i ->
      Sql.row_with_id j (V3.get_all_expenses (Sql.delete_where_id i d))
      = Sql.row_with_id j (V3.get_all_expenses d) /\
      Sql.row_with_id j
        (V3.get_all_expenses (fst (V3.view_expenses_tab (Some i) d)))
      = Sql.row_with_id j (V3.get_all_expenses d) /\
      (forall item,
          Sql.id item = i ->
          Sql.row_with_id j
            (V3.get_all_expenses (fst (V2.delete_expense (Some item) d)))
          = Sql.row_with_id j (V3.get_all_expenses d))) /\
  fst (V3.view_expenses_tab None d) = d /\
  fst (V2.delete_expense None d) = d /\
  (forall j r,
      Sql.row_with_id j (V3.get_all_expenses d) = Some r ->
      forall desc amt amt_text cat today,
        Sql.row_with_id j
          (V3.get_all_expenses (fst (V3.add_expense desc amt cat today d)))
        = Some r /\
        Sql.row_with_id j
          (V3.get_all_expenses
             (fst (V3.add_expense_tab desc amt cat today d)))
        = Some r /\
        (forall d' out,
            V2.add_expense desc amt_text cat today d = inl (d', out) ->
            Sql.row_with_id j (V3.get_all_expenses d') = Some r)).
Proof.
  intros Hr. apply reachable_consistent in Hr. unfold V3.get_all_expenses.
  split; [|split; [|split]].
  - intros i j Hji.
    pose proof (row_with_id_delete d i j Hr Hji) as Hdel.
    split; [exact Hdel|]. split.
    + unfold V3.view_expenses_tab, V3.get_all_expenses.
      destruct (Sql.select_all_order_by_id_desc d) eqn:E.
      * cbn [fst]. now rewrite E.
      * cbn [fst V3.delete_expense]. exact Hdel.
    + intros item <-. exact Hdel.
  - unfold V3.view_expenses_tab. now destruct (V3.get_all_expenses d).
  - reflexivity.
  - intros j r Hj desc amt amt_text cat today.
    pose proof (fun a => row_with_id_insert d today desc a cat j r Hr Hj)
      as Hins.
    split; [apply Hins|]. split.
    + destruct (V3_add_expense_tab_db desc amt cat today d) as [-> | ->];
        [exact Hj | apply Hins].
    + intros d' out H.
      destruct (V2_add_expense_db desc amt_text cat today d d' out H)
        as [-> | [a ->]]; [exact Hj | apply Hins].
Qed.

Lemma other_rows_untouched_witness :
  Sql.reachable Sample.db /\
  Sql.row_with_id 1 (V3.get_all_expenses (Sql.delete_where_id 3 Sample.db))
  = Sql.row_with_id 1 (V3.get_all_expenses Sample.db).
Proof.
  split; [exact sample_reachable|].
  apply (proj1 (other_rows_untouched Sample.db sample_reachable) 3%Z 1%Z).
  discriminate.
Defined.

End Frame.

(** * Further properties of the two programs *)

(** ** Sums by group *)

Section Groups.

Lemma group_sum_in_iff (key : Sql.expense -> string)
  (rows : list Sql.expense) (k : string) (v : Q) :
  In (k, v) (Sql.group_sum key rows) <->
  In k (map key rows) /\
  v = Py.sum (map Sql.amount (filter (fun r => key r =? k) rows)).
Proof.
  unfold Sql.group_sum. rewrite in_map_iff. split.
  - intros (k' & E & Hin). inversion E; subst. split; [|reflexivity].
    apply sort_by_in in Hin. now apply nodup_In in Hin.
  - intros [Hk ->]. exists k. split; [reflexivity|].
    apply sort_by_in. now apply nodup_In.
Qed.

Lemma group_sum_length (key : Sql.expense -> string)
  (rows : list Sql.expense) :
  List.length (Sql.group_sum key rows)
  = List.length (nodup string_dec (map key rows)).
Proof.
  unfold Sql.group_sum. rewrite length_map.
  apply Permutation_length, sort_by_perm.
Qed.

Lemma group_sum_nil (key : Sql.expense -> string)
  (rows : list Sql.expense) :
  Sql.group_sum key rows = [] <-> rows = [].
Proof.
  split; [|now intros ->].
  intros H. destruct rows as [|r rows]; [reflexivity|]. exfalso.
  assert (Hin : In (key r, Py.sum (map Sql.amount
                       (filter (fun r' => key r' =? key r) (r :: rows))))
                   (Sql.group_sum key (r :: rows))).
  { apply group_sum_in_iff. split; [now left | reflexivity]. }
  now rewrite H in Hin.
Qed.

Lemma unique_value (l : list (string * Q)) (k : string) (v v' : Q) :
  NoDup (map fst l) -> In (k, v) l -> In (k, v') l -> v = v'.
Proof.
  induction l as [|[k0 v0] l IH]; simpl; intros Hnd H H'; [destruct H|].
  inversion Hnd as [|? ? Hk0 Hl]; subst.
  destruct H as [E|H], H' as [E'|H'].
  - congruence.
  - inversion E; subst. exfalso. apply Hk0.
    change k with (fst (k, v')). now apply in_map.
  - inversion E'; subst. exfalso. apply Hk0.
    change k with (fst (k, v)). now apply in_map.
  - now apply IH.
Qed.

Lemma argmax_nil (s : list (string * Q)) : Py.argmax s = None <-> s = [].
Proof.
  split; [|now intros ->].
  destruct s as [|[k v] t]; [reflexivity|]. simpl.
  destruct (Py.argmax t) as [[k' v']|]; [|discriminate].
  destruct (Qle_bool v' v); discriminate.
Qed.

Lemma argmax_max (s : list (string * Q)) (k : string) (v : Q) :
  Py.argmax s = Some (k, v) ->
  In (k, v) s /\ forall k' v', In (k', v') s -> v' <= v.
Proof.
  revert k v. induction s as [|[k0 v0] t IH]; intros k v; simpl.
  - discriminate.
  - destruct (Py.argmax t) as [[k1 v1]|] eqn:E.
    + destruct (IH k1 v1 eq_refl) as [Hin Hmax].
      destruct (Qle_bool v1 v0) eqn:Hle; intros H; inversion H; subst.
      * apply Qle_bool_iff in Hle. split; [now left|].
        intros k' v' [E'|Hin']; [inversion E'; apply Qle_refl|].
        eapply Qle_trans; [apply (Hmax k' v' Hin') | exact Hle].
      * assert (Hlt : v0 < v).
        { apply Qnot_le_lt. intros Hc. apply Qle_bool_iff in Hc. congruence. }
        split; [now right|].
        intros k' v' [E'|Hin']; [inversion E'; subst; now apply Qlt_le_weak|].
        apply (Hmax k' v' Hin').
    + apply argmax_nil in E. subst t. intros H; inversion H; subst.
      split; [now left|].
      intros k' v' [E'|[]]. inversion E'. apply Qle_refl.
Qed.

Lemma daily_avg_none (df : list Sql.expense) :
  V3.daily_avg df = None -> df = [].
Proof.
  unfold V3.daily_avg, Py.mean.
  destruct (map snd (Sql.group_sum Sql.date df)) eqn:E; [|discriminate].
  intros _. apply map_eq_nil in E. now apply group_sum_nil in E.
Qed.

Lemma highest_cat_none (df : list Sql.expense) :
  V3.highest_cat df = None -> df = [].
Proof.
  unfold V3.highest_cat, Py.idxmax.
  destruct (Py.argmax (Sql.group_sum Sql.category df)) eqn:E;
    [discriminate|].
  intros _. apply argmax_nil in E. now apply group_sum_nil in E.
Qed.

(** X1: the daily sums of the browser variant are one amount for each date
    that occurs in the frame, the sum of the amounts of that date, and
    together they add up to the total spent. *)
Theorem daily_sums_add_up_to_total (df : list Sql.expense) :
  NoDup (map fst (V3.daily_data df)) /\
  List.length (V3.daily_data df)
  = List.length (nodup string_dec (map Sql.date df)) /\
  (forall day v,
      In (day, v) (V3.daily_data df) <->
      In day (map Sql.date df) /\
      v = Py.sum (map Sql.amount
                      (filter (fun r => Sql.date r =? day) df))) /\
  Py.sum (map snd (V3.daily_data df)) == V3.total_spent df.
Proof.
  unfold V3.daily_data, V3.total_spent.
  split; [apply group_sum_keys_NoDup|].
  split; [apply group_sum_length|].
  split; [|apply group_sum_total].
  intros day v. apply group_sum_in_iff.
Qed.

(** X2: the daily average of the browser variant, times the number of
    dates that occur in the frame, is the total spent; it is undefined over
    an empty frame only. *)
Theorem daily_average_times_days (df : list Sql.expense) :
  match V3.daily_avg df with
  | Some avg =>
      avg * inject_Z (Z.of_nat (List.length
                                  (nodup string_dec (map Sql.date df))))
      == V3.total_spent df
  | None => df = []
  end.
Proof.
  unfold V3.daily_avg, Py.mean.
  assert (Hlen : List.length (map snd (Sql.group_sum Sql.date df))
                 = List.length (nodup string_dec (map Sql.date df)))
    by (rewrite length_map; apply group_sum_length).
  destruct (map snd (Sql.group_sum Sql.date df)) as [|x xs] eqn:E.
  - apply map_eq_nil in E. now apply group_sum_nil in E.
  - rewrite <- Hlen. unfold V3.total_spent.
    rewrite <- (group_sum_total Sql.date df), E. field.
    cbn [List.length]. intros H.
    apply (inject_Z_injective (Z.of_nat (S (List.length xs))) 0) in H. lia.
Qed.

(** X3: the highest spending category of the browser variant is a category
    that occurs in the frame and whose sum no other category's sum exceeds;
    it is undefined over an empty frame only. *)
Theorem highest_cat_has_the_largest_sum (df : list Sql.expense) :
  match V3.highest_cat df with
  | Some c =>
      In c (map Sql.category df) /\
      forall c',
        In c' (map Sql.category df) ->
        Py.sum (map Sql.amount
                    (filter (fun r => Sql.category r =? c') df))
        <= Py.sum (map Sql.amount
                       (filter (fun r => Sql.category r =? c) df))
  | None => df = []
  end.
Proof.
  unfold V3.highest_cat, Py.idxmax.
  destruct (Py.argmax (Sql.group_sum Sql.category df)) as [[c v]|] eqn:E.
  - cbn [option_map fst]. apply argmax_max in E. destruct E as [Hin Hmax].
    apply group_sum_in_iff in Hin. destruct Hin as [Hc ->].
    split; [exact Hc|]. intros c' Hc'.
    apply (Hmax c'). apply group_sum_in_iff. now split.
  - cbn [option_map]. apply argmax_nil in E. now apply group_sum_nil in E.
Qed.

End Groups.

(** ** The category chart *)

Section Chart.

Lemma Qle_bool_total (a b : Q) : Qle_bool a b = false -> Qle_bool b a = true.
Proof.
  intros H. apply Qle_bool_iff, Qlt_le_weak, Qnot_le_lt.
  intros Hc. apply Qle_bool_iff in Hc. congruence.
Qed.

Lemma cat_data_sorted (df : list Sql.expense) :
  StronglySorted (fun a b : string * Q => snd b <= snd a) (V3.cat_data df).
Proof.
  unfold V3.cat_data.
  pose proof (sort_by_sorted
                (fun a b : string * Q => Qle_bool (snd b) (snd a))
                (fun a b => Qle_bool_total (snd b) (snd a))
                (Sql.group_sum Sql.category df)) as Hs.
  apply Sorted_StronglySorted.
  - intros a b c Hab Hbc. eapply Qle_trans; eassumption.
  - induction Hs as [|a l _ IH Hhd]; constructor; [exact IH|].
    destruct Hhd as [|b l' Hb]; constructor. now apply Qle_bool_iff.
Qed.

(** X4: the category series charted by the browser variant holds the same
    entries as the sums by category, in the order of falling sums; so its
    first bar carries the largest sum, which is the sum of the highest
    spending category shown among the metrics. *)
Theorem cat_data_largest_first (df : list Sql.expense) :
  Permutation (V3.cat_data df) (Sql.group_sum Sql.category df) /\
  StronglySorted (fun a b : string * Q => snd b <= snd a) (V3.cat_data df) /\
  match V3.cat_data df with
  | (c0, v0) :: _ =>
      (forall c v, In (c, v) (V3.cat_data df) -> v <= v0) /\
      (forall c,
          V3.highest_cat df = Some c ->
          Py.sum (map Sql.amount
                      (filter (fun r => Sql.category r =? c) df)) == v0)
  | [] => df = []
  end.
Proof.
  pose proof (cat_data_sorted df) as Hs.
  assert (Hp : Permutation (V3.cat_data df) (Sql.group_sum Sql.category df))
    by apply sort_by_perm.
  split; [exact Hp|]. split; [exact Hs|].
  destruct (V3.cat_data df) as [|[c0 v0] rest] eqn:E.
  - apply Permutation_nil in Hp. now apply group_sum_nil in Hp.
  - assert (Hfirst : forall c v, In (c, v) ((c0, v0) :: rest) -> v <= v0).
    { intros c v [H|H]; [inversion H; apply Qle_refl|].
      inversion Hs as [|? ? _ Hall]; subst.
      rewrite Forall_forall in Hall. apply (Hall (c, v) H). }
    split; [exact Hfirst|].
    intros c Hc. unfold V3.highest_cat, Py.idxmax in Hc.
    destruct (Py.argmax (Sql.group_sum Sql.category df)) as [[c1 v1]|] eqn:Ea;
      [|discriminate Hc].
    cbn [option_map fst] in Hc. inversion Hc; subst c1.
    apply argmax_max in Ea. destruct Ea as [Hin Hmax].
    pose proof Hin as Hv. apply group_sum_in_iff in Hv.
    destruct Hv as [_ <-]. apply Qle_antisym.
    + apply (Hfirst c). apply (Permutation_in _ (Permutation_sym Hp)), Hin.
    + apply (Hmax c0). apply (Permutation_in _ Hp). now left.
Qed.

(** X5: each view that needs rows shows its notice exactly when the table
    has none: the chart of the desktop variant, and the Reports tab and its
    metrics in the browser variant; the View tab of the browser variant then
    deletes nothing whatever the select box holds.  Over a table with rows
    the metrics are all defined. *)
Theorem notices_exactly_on_empty_table (d : Sql.db) :
  (V2.show_chart d = inl (V2.showinfo "Info" "No data to display.") <->
   Sql.expenses d = []) /\
  (V3.reports_tab d = inl (V3.info "No data available for visualization.")
   <-> Sql.expenses d = []) /\
  (V3.metrics d = inl (V3.info "No data available for visualization.")
   <-> Sql.expenses d = []) /\
  (Sql.expenses d = [] ->
   forall delete_id,
     V3.view_expenses_tab delete_id d
     = (d, Some (V3.info "No expenses recorded yet."))) /\
  (Sql.expenses d <> [] ->
   exists total avg c,
     V3.metrics d = inr (total, Some avg, Some c)).
Proof.
  pose proof (sort_by_nil (fun a b => (Sql.id b <=? Sql.id a)%Z)
                          (Sql.expenses d)) as Hn.
  fold (Sql.select_all_order_by_id_desc d) in Hn.
  split; [|split; [|split; [|split]]].
  - unfold V2.show_chart, Sql.select_category_sum_group_by_category.
    rewrite <- (group_sum_nil Sql.category (Sql.expenses d)).
    destruct (Sql.group_sum Sql.category (Sql.expenses d)); split;
      congruence.
  - unfold V3.reports_tab, V3.get_all_expenses. rewrite <- Hn.
    destruct (Sql.select_all_order_by_id_desc d); split; congruence.
  - unfold V3.metrics, V3.get_all_expenses. rewrite <- Hn.
    destruct (Sql.select_all_order_by_id_desc d); split; congruence.
  - intros E delete_id. apply Hn in E.
    unfold V3.view_expenses_tab, V3.get_all_expenses. now rewrite E.
  - intros Hne. unfold V3.metrics, V3.get_all_expenses.
    destruct (Sql.select_all_order_by_id_desc d) as [|r df] eqn:E.
    + exfalso. now apply Hne, Hn.
    + pose proof (daily_avg_none (r :: df)) as Ha.
      pose proof (highest_cat_none (r :: df)) as Hc.
      destruct (V3.daily_avg (r :: df)) as [avg|];
        [|discriminate (Ha eq_refl)].
      destruct (V3.highest_cat (r :: df)) as [c|];
        [|discriminate (Hc eq_refl)].
      now exists (V3.total_spent (r :: df)), avg, c.
Qed.

End Chart.

(** ** How adding and deleting move the sums *)

Section Bookkeeping.

(** X6: storing an expense raises the total by its amount: the total spent
    of the browser variant, through [add_expense] and through the form when
    it accepts the input, and the total on the label of the desktop variant
    when [float] reads the amount text as a finite value.  A form that
    turns the input down
    leaves the total as it is. *)
Theorem adding_raises_total_by_amount (d : Sql.db) (desc : string) (amt : Q)
  (cat today : string) :
  V3.total_spent (V3.get_all_expenses
                    (fst (V3.add_expense desc amt cat today d)))
  == V3.total_spent (V3.get_all_expenses d) + amt /\
  (desc <> "" -> 0 < amt ->
   V3.total_spent (V3.get_all_expenses
                     (fst (V3.add_expense_tab desc amt cat today d)))
   == V3.total_spent (V3.get_all_expenses d) + amt) /\
  (desc = "" \/ amt <= 0 ->
   V3.total_spent (V3.get_all_expenses
                     (fst (V3.add_expense_tab desc amt cat today d)))
   = V3.total_spent (V3.get_all_expenses d)) /\
  (forall amt_text a,
      desc <> "" -> Py.float amt_text = Some (Py.finite a) ->
      exists suggestion w,
        V2.add_expense desc amt_text cat today d
        = inl (fst (Sql.insert today desc a cat d), inr (suggestion, w)) /\
        V2.total_label w == V2.total_label (V2.refresh_table d) + a).
Proof.
  assert (Hadd : forall a,
             V3.total_spent (V3.get_all_expenses
                               (fst (Sql.insert today desc a cat d)))
             == V3.total_spent (V3.get_all_expenses d) + a).
  { intros a. unfold V3.get_all_expenses.
    rewrite listing_after_insert_any. unfold V3.total_spent.
    cbn [map Sql.amount]. unfold Py.sum. cbn [fold_right]. ring. }
  split; [apply Hadd|]. split; [|split].
  - intros Hd Ha. rewrite (V3_add_expense_tab_accepts _ _ _ _ _ Hd Ha).
    apply Hadd.
  - intros Hrej. apply (V3_add_expense_tab_rejects desc amt cat today d)
      in Hrej. now rewrite Hrej.
  - intros amt_text a Hd Ha.
    rewrite (V2_add_expense_accepts _ _ _ _ _ _ Hd Ha).
    eexists _, _. split; [reflexivity|].
    cbn [V2.refresh_table V2.total_label].
    rewrite !update_summary_sum. cbn [Sql.insert fst Sql.expenses].
    rewrite map_app, sum_app. cbn [map Sql.amount]. unfold Py.sum.
    cbn [fold_right]. ring.
Qed.

Lemma adding_raises_total_by_amount_witness :
  exists suggestion w,
    V2.add_expense "tea" "2.5" "Food" "2024-01-03" Sample.db
    = inl (fst (Sql.insert "2024-01-03" "tea" (25 # 10) "Food" Sample.db),
           inr (suggestion, w)) /\
    V2.total_label w
    == V2.total_label (V2.refresh_table Sample.db) + (5 # 2).
Proof.
  destruct (adding_raises_total_by_amount
              Sample.db "tea" (5 # 2) "Food" "2024-01-03")
    as (_ & _ & _ & H).
  destruct (H "2.5" (inject_Z 25 * Qpower 10 (-1))) as (s & w & Hs & Hw).
  - discriminate.
  - reflexivity.
  - exists s, w. split; [exact Hs|]. rewrite Hw. reflexivity.
Defined.

(** X7: in the category series of the browser variant, storing an expense
    changes the entry of its own category only: that entry becomes the
    amount plus the earlier sum of the category, and every other entry
    stays as it was. *)
Theorem adding_changes_one_category_sum (d : Sql.db) (desc : string)
  (amt : Q) (cat today : string) (c : string) (v : Q) :
  In (c, v) (V3.cat_data (V3.get_all_expenses
                            (fst (V3.add_expense desc amt cat today d))))
  <->
  (c = cat /\
   v = amt + Py.sum (map Sql.amount
                         (filter (fun r => Sql.category r =? cat)
                                 (V3.get_all_expenses d))))
  \/ (c <> cat /\ In (c, v) (V3.cat_data (V3.get_all_expenses d))).
Proof.
  unfold V3.cat_data. rewrite !sort_by_in, !group_sum_in_iff.
  unfold V3.get_all_expenses, V3.add_expense. cbn [fst].
  rewrite listing_after_insert_any.
  cbn [map filter Sql.category].
  destruct (String.eqb_spec cat c) as [->|Hne].
  - cbn [map Py.sum fold_right Sql.amount In]. split.
    + intros [_ ->]. now left.
    + intros [[_ ->]|[Hc _]]; [|congruence]. split; [now left | reflexivity].
  - cbn [In]. split.
    + intros [[E|Hin] ->]; [congruence|]. right. repeat split; congruence.
    + intros [[E _]|[_ [Hin ->]]]; [congruence|]. split; [now right|].
      reflexivity.
Qed.

Lemma sum_cons (a : Q) (l : list Q) : Py.sum (a :: l) = a + Py.sum l.
Proof. reflexivity. Qed.

Lemma sum_without_row (rows : list Sql.expense) (r : Sql.expense) :
  NoDup (map Sql.id rows) -> In r rows ->
  Py.sum (map Sql.amount
              (filter (fun x => negb (Sql.id x =? Sql.id r)%Z) rows))
  == Py.sum (map Sql.amount rows) - Sql.amount r.
Proof.
  induction rows as [|x rows IH]; intros Hnd Hin; [destruct Hin|].
  inversion Hnd as [|? ? Hx Hrows]; subst. cbn [filter].
  destruct (Z.eqb_spec (Sql.id x) (Sql.id r)) as [E|Hne]; cbn [negb].
  - assert (x = r).
    { destruct Hin as [|Hin]; [assumption|]. exfalso. apply Hx.
      rewrite E. now apply in_map. }
    subst x. rewrite filter_keeps_all.
    + cbn [map]. rewrite sum_cons. ring.
    + intros y Hy. apply negb_true_iff, Z.eqb_neq. intros Ey.
      apply Hx. rewrite <- Ey. now apply in_map.
  - destruct Hin as [->|Hin]; [congruence|].
    cbn [map]. rewrite !sum_cons, (IH Hrows Hin). ring.
Qed.

Lemma consistent_rows_NoDup (d : Sql.db) :
  Sql.consistent d -> NoDup (map Sql.id (Sql.expenses d)).
Proof.
  intros Hd.
  apply (Permutation_NoDup
           (Permutation_map Sql.id
              (sort_by_perm (fun a b => (Sql.id b <=? Sql.id a)%Z)
                            (Sql.expenses d)))).
  now apply consistent_listing_NoDup.
Qed.

(** X8: on a reachable state, deleting a listed row lowers the total by
    the amount of that row, in the browser variant and on the label of the
    desktop variant. *)
Theorem deleting_lowers_total_by_amount (d : Sql.db) (r : Sql.expense) :
  Sql.reachable d -> In r (V3.get_all_expenses d) ->
  V3.total_spent (V3.get_all_expenses
                    (fst (V3.delete_expense (Sql.id r) d)))
  == V3.total_spent (V3.get_all_expenses d) - Sql.amount r /\
  exists w,
    snd (V2.delete_expense (Some r) d) = inr w /\
    V2.total_label w
    == V2.total_label (V2.refresh_table d) - Sql.amount r.
Proof.
  intros Hr Hin. apply reachable_consistent in Hr.
  apply select_all_in in Hin.
  pose proof (sum_without_row _ _ (consistent_rows_NoDup d Hr) Hin) as Hs.
  split.
  - unfold V3.total_spent, V3.get_all_expenses, V3.delete_expense.
    cbn [fst]. rewrite !listed_amounts_sum. exact Hs.
  - eexists. split; [reflexivity|].
    cbn [V2.refresh_table V2.total_label].
    rewrite !update_summary_sum. exact Hs.
Qed.

Lemma deleting_lowers_total_by_amount_witness :
  V3.total_spent (V3.get_all_expenses
                    (fst (V3.delete_expense 3 Sample.db)))
  == V3.total_spent (V3.get_all_expenses Sample.db) - (5 # 2).
Proof.
  apply (deleting_lowers_total_by_amount Sample.db Sample.coffee).
  - exists Sample.history. reflexivity.
  - left. reflexivity.
Defined.

(** X9: storing a row and then deleting the row under the key it was given
    brings the listing back to what it was: the row is listed under its key
    in between and under no key afterwards.  The table is not the one from
    before, though: the counter stays at the key that was handed out, and
    the next row stored gets the key after it. *)
Theorem insert_then_delete_restores_listing (d : Sql.db) (dt desc : string)
  (amt : Q) (cat : string) :
  let d1 := fst (Sql.insert dt desc amt cat d) in
  let i := snd (Sql.insert dt desc amt cat d) in
  let d2 := Sql.delete_where_id i d1 in
  Sql.row_with_id i (V3.get_all_expenses d1)
  = Some (Sql.mkExpense i dt desc amt cat) /\
  V3.get_all_expenses d2 = V3.get_all_expenses d /\
  Sql.row_with_id i (V3.get_all_expenses d2) = None /\
  Sql.sqlite_sequence d2 = i /\
  forall dt' desc' amt' cat',
    snd (Sql.insert dt' desc' amt' cat' d2) = (i + 1)%Z.
Proof.
  intros d1 i d2.
  pose proof (lastrowid_above_rows d dt desc amt cat) as Hb. fold i in Hb.
  assert (Hrows : Sql.expenses d2 = Sql.expenses d).
  { subst d2 d1. cbn [Sql.insert fst Sql.delete_where_id Sql.expenses].
    rewrite filter_app. cbn [filter Sql.id]. fold i.
    rewrite Z.eqb_refl. cbn [negb]. rewrite app_nil_r.
    apply filter_keeps_all. intros r Hr. rewrite Forall_forall in Hb.
    specialize (Hb r Hr). apply negb_true_iff, Z.eqb_neq. lia. }
  assert (Hlist : V3.get_all_expenses d2 = V3.get_all_expenses d).
  { unfold V3.get_all_expenses, Sql.select_all_order_by_id_desc.
    now rewrite Hrows. }
  split; [|split; [exact Hlist|split; [|split]]].
  - subst d1. unfold V3.get_all_expenses.
    rewrite listing_after_insert_any. fold i. unfold Sql.row_with_id.
    cbn [find Sql.id]. now rewrite Z.eqb_refl.
  - rewrite Hlist. unfold Sql.row_with_id.
    destruct (find _ _) as [r|] eqn:E; [|reflexivity].
    apply find_some in E. destruct E as [Hin E].
    apply select_all_in in Hin. rewrite Forall_forall in Hb.
    specialize (Hb r Hin). apply Z.eqb_eq in E. lia.
  - reflexivity.
  - intros dt' desc' amt' cat'. unfold Sql.insert at 1. cbn [snd].
    rewrite Hrows. subst d2 d1. cbn [Sql.delete_where_id Sql.sqlite_sequence
                                     Sql.insert fst].
    subst i. cbn [Sql.insert snd]. lia.
Qed.

End Bookkeeping.

(** ** The two categorizers side by side *)

Section Variants.

Lemma mentions_none_of_two (k1 k2 d : string) :
  ~ Spec.mentions [k1; k2] d ->
  Py.str_in k1 (Py.lower d) = false /\ Py.str_in k2 (Py.lower d) = false.
Proof.
  intros H. apply any_in_lower_false in H. unfold Py.any_in in H.
  cbn [existsb] in H. rewrite orb_false_r in H.
  now apply orb_false_iff in H.
Qed.

Ltac by_cases_on_words :=
  unfold Py.any_in; cbn [existsb];
  repeat match goal with
         | |- context [Py.str_in ?k ?x] => destruct (Py.str_in k x)
         end; reflexivity.

Lemma food_words_agree (x : string) :
  Py.str_in "lunch" x = false -> Py.str_in "snack" x = false ->
  Py.any_in ["pizza"; "food"; "coffee"; "lunch"; "restaurant"] x
  = Py.any_in ["pizza"; "food"; "coffee"; "restaurant"; "snack"] x.
Proof.
  intros Hl Hs. unfold Py.any_in. cbn [existsb]. rewrite Hl, Hs.
  by_cases_on_words.
Qed.

Lemma bills_words_agree (x : string) :
  Py.any_in ["rent"; "bill"; "recharge"; "electricity"] x
  = Py.any_in ["bill"; "recharge"; "rent"; "electricity"] x.
Proof. by_cases_on_words. Qed.

Lemma health_words_agree (x : string) :
  Py.any_in ["doctor"; "pharmacy"; "medicine"; "hospital"] x
  = Py.any_in ["doctor"; "medicine"; "hospital"; "pharmacy"] x.
Proof. by_cases_on_words. Qed.

(** X10: the two variants give the same category to every description
    that contains neither lunch nor snack, in any letter case. *)
Theorem variants_agree_without_lunch_and_snack (d : string) :
  ~ Spec.mentions ["lunch"; "snack"] d ->
  V2.suggest_category d = V3.suggest_category d.
Proof.
  intros H. apply mentions_none_of_two in H. destruct H as [Hl Hs].
  unfold V2.suggest_category, V3.suggest_category. cbv zeta.
  rewrite (food_words_agree _ Hl Hs), bills_words_agree, health_words_agree.
  reflexivity.
Qed.

Lemma variants_agree_without_lunch_and_snack_witness :
  V2.suggest_category "Electricity BILL" = V3.suggest_category "Electricity BILL".
Proof.
  apply variants_agree_without_lunch_and_snack.
  apply any_in_lower_false. reflexivity.
Defined.

Lemma V2_suggest_category_label (d : string) :
  In (V2.suggest_category d)
     ["Food"; "Travel"; "Bills"; "Health"; "Shopping"; "Miscellaneous"].
Proof.
  unfold V2.suggest_category. cbv zeta.
  repeat match goal with
         | |- context [if ?b then _ else _] => destruct b
         end; simpl; tauto.
Qed.

Lemma V3_suggest_category_label (d : string) :
  In (V3.suggest_category d)
     ["Food"; "Travel"; "Bills"; "Health"; "Shopping"; "Miscellaneous"].
Proof.
  unfold V3.suggest_category. cbv zeta.
  repeat match goal with
         | |- context [if ?b then _ else _] => destruct b
         end; simpl; tauto.
Qed.

(** X11: whatever the description, [suggest_category] answers with one of
    the six labels Food, Travel, Bills, Health, Shopping, Miscellaneous, in
    both variants; the category the browser form is pre-filled with is that
    answer for a description that is not empty, and it is empty for the
    empty description only. *)
Theorem suggestion_is_one_of_six_labels (d : string) :
  In (V2.suggest_category d)
     ["Food"; "Travel"; "Bills"; "Health"; "Shopping"; "Miscellaneous"] /\
  In (V3.suggest_category d)
     ["Food"; "Travel"; "Bills"; "Health"; "Shopping"; "Miscellaneous"] /\
  (d <> "" -> V3.suggested d = V3.suggest_category d) /\
  (V3.suggested d = "" <-> d = "").
Proof.
  pose proof (V3_suggest_category_label d) as H3.
  split; [apply V2_suggest_category_label|]. split; [exact H3|].
  unfold V3.suggested. destruct d as [|c d]; cbn [Py.truthy].
  - split; [congruence|]. split; reflexivity.
  - split; [reflexivity|]. split; [|discriminate].
    intros E. rewrite E in H3. simpl in H3.
    repeat destruct H3 as [H3|H3]; try discriminate H3. destruct H3.
Qed.

End Variants.

(** ** What a run of either program stores *)

Section Sessions.

Lemma session_invariant_V3 (P : Sql.expense -> Prop) (events : list V3.event)
  (d : Sql.db) :
  (forall desc amt cat today i,
      desc <> "" -> 0 < amt -> P (Sql.mkExpense i today desc amt cat)) ->
  Forall P (Sql.expenses d) ->
  Forall P (Sql.expenses (V3.session events d)).
Proof.
  intros Hnew. unfold V3.session. revert d.
  induction events as [|e events IH]; intros d Hd; [exact Hd|].
  cbn [fold_left]. apply IH. destruct e as [desc amt cat today|delete_id].
  - cbn [V3.handle]. unfold V3.add_expense_tab.
    destruct (Py.truthy desc) eqn:Et; [|exact Hd].
    destruct (Py.gt amt 0) eqn:Ea; [|exact Hd].
    cbn [andb fst V3.add_expense Sql.insert Sql.expenses].
    apply Forall_app. split; [exact Hd|]. constructor; [|constructor].
    apply Hnew; [now apply truthy_true | now apply gt_zero].
  - cbn [V3.handle]. unfold V3.view_expenses_tab.
    destruct (V3.get_all_expenses d); [exact Hd|].
    destruct delete_id as [i|]; [|exact Hd].
    cbn [fst V3.delete_expense Sql.delete_where_id Sql.expenses].
    rewrite Forall_forall in *. intros r Hr. apply Hd.
    now apply filter_In in Hr.
Qed.

Lemma session_invariant_V2 (P : Sql.expense -> Prop) (events : list V2.event)
  (d d' : Sql.db) :
  (forall desc amt cat today i,
      desc <> "" -> P (Sql.mkExpense i today desc amt cat)) ->
  Forall P (Sql.expenses d) ->
  V2.session events d = Some d' ->
  Forall P (Sql.expenses d').
Proof.
  intros Hnew. revert d.
  induction events as [|e events IH]; intros d Hd; cbn [V2.session].
  - intros H. inversion H. now subst.
  - destruct (V2.handle e d) as [d1|] eqn:E; [|discriminate].
    apply IH. destruct e as [desc amt cat today|selected].
    + cbn [V2.handle] in E. unfold V2.add_expense in E.
      destruct (Py.truthy desc) eqn:Et; cbn [negb orb] in E;
        [|inversion E; now subst].
      destruct (Py.truthy amt); cbn [negb] in E; [|inversion E; now subst].
      destruct (Py.float amt) as [[a|x]|]; inversion E; subst; [|exact Hd].
      cbn [fst Sql.insert Sql.expenses].
      apply Forall_app. split; [exact Hd|]. constructor; [|constructor].
      apply Hnew. now apply truthy_true.
    + cbn [V2.handle] in E. inversion E; subst.
      destruct selected as [item|]; [|exact Hd].
      cbn [V2.delete_expense fst Sql.delete_where_id Sql.expenses].
      rewrite Forall_forall in *. intros r Hr. apply Hd.
      now apply filter_In in Hr.
Qed.

Lemma sum_positive (xs : list Q) :
  Forall (fun x => 0 < x) xs -> xs <> [] -> 0 < Py.sum xs.
Proof.
  induction 1 as [|x xs Hx Hxs IH]; intros Hne; [congruence|].
  rewrite sum_cons. destruct xs as [|y ys].
  - unfold Py.sum. cbn [fold_right]. lra.
  - assert (0 < Py.sum (y :: ys)) by (apply IH; discriminate). lra.
Qed.

(** X12: a run of the browser program never stores a row with an empty
    description or with an amount that is not above zero: if the table
    holds no such row before, it holds none after any sequence of presses
    of "Add Expense" and "Delete Selected".  The total spent is then above
    zero whenever a row is listed. *)
Theorem browser_sessions_store_valid_rows (events : list V3.event)
  (d : Sql.db) :
  Forall (fun r => Sql.description r <> "" /\ 0 < Sql.amount r)
         (Sql.expenses d) ->
  Forall (fun r => Sql.description r <> "" /\ 0 < Sql.amount r)
         (Sql.expenses (V3.session events d)) /\
  (V3.get_all_expenses (V3.session events d) <> [] ->
   0 < V3.total_spent (V3.get_all_expenses (V3.session events d))).
Proof.
  intros Hd.
  assert (Hall : Forall (fun r => Sql.description r <> "" /\ 0 < Sql.amount r)
                        (Sql.expenses (V3.session events d))).
  { apply session_invariant_V3; [|exact Hd]. intros; now split. }
  split; [exact Hall|]. intros Hne. unfold V3.total_spent.
  apply sum_positive.
  - rewrite Forall_forall in *. intros x Hx. apply in_map_iff in Hx.
    destruct Hx as (r & <- & Hr). apply select_all_in in Hr.
    apply (Hall r Hr).
  - intros E. apply map_eq_nil in E. now apply Hne.
Qed.

Lemma browser_sessions_store_valid_rows_witness :
  Forall (fun r => Sql.description r <> "" /\ 0 < Sql.amount r)
         (Sql.expenses
            (V3.session [V3.AddExpense "tea" 3 "Food" "2024-01-03";
                         V3.AddExpense "" 5 "Food" "2024-01-03";
                         V3.AddExpense "bus" 0 "Travel" "2024-01-03";
                         V3.DeleteSelected (Some 1%Z)]
                        Sql.empty)).
Proof.
  apply browser_sessions_store_valid_rows. constructor.
Defined.

(** X13: a run of the desktop program never stores a row with an empty
    description: if the table holds no such row before, it holds none after
    any sequence of presses of "Add" and "Delete".  A row that is stored
    with an amount that is not finite, where the run leaves the tables of
    this model, has a description as well. *)
Theorem desktop_sessions_store_described_rows (events : list V2.event)
  (d : Sql.db) :
  Forall (fun r => Sql.description r <> "") (Sql.expenses d) ->
  (forall d',
      V2.session events d = Some d' ->
      Forall (fun r => Sql.description r <> "") (Sql.expenses d')) /\
  (forall desc amt cat today d0 x,
      V2.add_expense desc amt cat today d0 = inr x -> desc <> "").
Proof.
  intros Hd. split.
  - intros d' Hrun.
    apply (session_invariant_V2
             (fun r => Sql.description r <> "") events d d');
      [|exact Hd|exact Hrun].
    intros desc amt cat today i Hdesc. exact Hdesc.
  - intros desc amt cat today d0 x. unfold V2.add_expense.
    destruct (Py.truthy desc) eqn:Et; cbn [negb orb].
    + intros _. now apply truthy_true.
    + discriminate.
Qed.

Lemma desktop_sessions_store_described_rows_witness :
  exists d',
    V2.session [V2.Add "tea" "3" "Food" "2024-01-03";
                V2.Add "" "5" "Food" "2024-01-03";
                V2.Add "bus" "-2" "Travel" "2024-01-03";
                V2.DeleteFocused None]
               Sql.empty = Some d' /\
    List.length (Sql.expenses d') = 2%nat /\
    Forall (fun r => Sql.description r <> "") (Sql.expenses d').
Proof.
  eexists. split; [reflexivity|]. split; [reflexivity|].
  apply (proj1 (desktop_sessions_store_described_rows
                  [V2.Add "tea" "3" "Food" "2024-01-03";
                   V2.Add "" "5" "Food" "2024-01-03";
                   V2.Add "bus" "-2" "Travel" "2024-01-03";
                   V2.DeleteFocused None]
                  Sql.empty (Forall_nil _))).
  reflexivity.
Defined.

End Sessions.

(** ** The select box *)

Section SelectBox.

Lemma int_str (i : Z) : Py.int (Py.str i) = Some i.
Proof.
  unfold Py.int, Py.str. rewrite NilZero.isi.
  - cbn [option_map]. now rewrite DecimalZ.of_to.
  - destruct i; cbn [Z.to_int]; intros H; inversion H.
    now apply (Unsigned.to_uint_nonnil p).
  - destruct i; cbn [Z.to_int]; intros H; inversion H.
    now apply (Unsigned.to_uint_nonnil p).
Qed.

Lemma str_not_None (i : Z) : Py.str i <> "None".
Proof.
  intros H. pose proof (int_str i) as E. rewrite H in E. discriminate E.
Qed.

Lemma str_injective (i j : Z) : Py.str i = Py.str j -> i = j.
Proof.
  intros H. pose proof (int_str i) as E. rewrite H, int_str in E.
  now inversion E.
Qed.

Lemma NoDup_map_str (l : list Z) : NoDup l -> NoDup (map Py.str l).
Proof.
  induction 1 as [|i l Hi Hl IH]; simpl; constructor; trivial.
  rewrite in_map_iff. intros (j & E & Hj).
  apply str_injective in E. now subst j.
Qed.

(** X14: the select box of the browser variant names the rows faithfully.
    Reading back the entry written for a key gives that key, and no key is
    written as "None"; so pressing "Delete Selected" on the entry of a key
    deletes by that key, on the entry "None" it deletes nothing, and on no
    entry of the box does the reading fail.  On a reachable state the
    entries of the box are all different. *)
Theorem select_box_names_the_rows (d : Sql.db) :
  V3.delete_selected "None" d = Some (V3.view_expenses_tab None d) /\
  (forall i,
      V3.delete_selected (Py.str i) d
      = Some (V3.view_expenses_tab (Some i) d)) /\
  (forall s,
      In s (V3.select_options (V3.get_all_expenses d)) ->
      s = "None" \/
      exists r, In r (V3.get_all_expenses d) /\ s = Py.str (Sql.id r) /\
                V3.delete_selected s d
                = Some (Sql.delete_where_id (Sql.id r) d,
                        Some (V3.success "Expense deleted successfully!")))
  /\
  (Sql.reachable d ->
   NoDup (V3.select_options (V3.get_all_expenses d))).
Proof.
  assert (Hstr : forall i,
             V3.delete_selected (Py.str i) d
             = Some (V3.view_expenses_tab (Some i) d)).
  { intros i. unfold V3.delete_selected, V3.view_expenses_tab.
    destruct (V3.get_all_expenses d); [reflexivity|].
    destruct (String.eqb_spec (Py.str i) "None") as [E|_];
      [now apply str_not_None in E|].
    cbn [negb]. now rewrite int_str. }
  split; [|split; [exact Hstr|split]].
  - unfold V3.delete_selected, V3.view_expenses_tab.
    now destruct (V3.get_all_expenses d).
  - intros s [<-|Hs]; [now left|]. right.
    rewrite map_map in Hs. apply in_map_iff in Hs.
    destruct Hs as (r & <- & Hr). exists r.
    split; [exact Hr|]. split; [reflexivity|].
    rewrite Hstr. unfold V3.view_expenses_tab.
    destruct (V3.get_all_expenses d); [destruct Hr | reflexivity].
  - intros Hr. apply reachable_consistent in Hr.
    unfold V3.select_options. constructor.
    + rewrite in_map_iff. intros (i & E & _). now apply str_not_None in E.
    + apply NoDup_map_str. now apply consistent_listing_NoDup.
Qed.

Lemma select_box_names_the_rows_witness :
  NoDup (V3.select_options (V3.get_all_expenses Sample.db)).
Proof.
  apply (proj2 (proj2 (proj2 (select_box_names_the_rows Sample.db)))).
  exists Sample.history. reflexivity.
Defined.

End SelectBox.

(** ** The bars of the desktop chart *)

Section DesktopChart.

Lemma combine_fst_snd {A B : Type} (l : list (A * B)) :
  combine (map fst l) (map snd l) = l.
Proof.
  induction l as [|[a b] l IH]; simpl; [reflexivity | now rewrite IH].
Qed.

(** X15: the chart of the desktop variant gets as many amounts as
    categories, and a category is charted with an amount exactly when some
    row of the table has that category and the amount is the sum of the
    amounts of the rows of that category. *)
Theorem show_chart_bars (d : Sql.db) (categories : list string)
  (amounts : list Q) :
  V2.show_chart d = inr (categories, amounts) ->
  List.length categories = List.length amounts /\
  forall c v,
    In (c, v) (combine categories amounts) <->
    In c (map Sql.category (Sql.expenses d)) /\
    v = Py.sum (map Sql.amount
                    (filter (fun r => Sql.category r =? c)
                            (Sql.expenses d))).
Proof.
  unfold V2.show_chart, Sql.select_category_sum_group_by_category.
  pose proof (group_sum_in_iff Sql.category (Sql.expenses d)) as Hin.
  destruct (Sql.group_sum Sql.category (Sql.expenses d)) as [|g data];
    [discriminate|].
  intros H. injection H as <- <-. split.
  - change (List.length (map fst (g :: data))
            = List.length (map snd (g :: data))).
    now rewrite !length_map.
  - intros c v.
    change (In (c, v) (combine (map fst (g :: data)) (map snd (g :: data)))
            <-> In c (map Sql.category (Sql.expenses d)) /\
                v = Py.sum (map Sql.amount
                                (filter (fun r => Sql.category r =? c)
                                        (Sql.expenses d)))).
    rewrite combine_fst_snd. apply Hin.
Qed.

Lemma show_chart_bars_witness :
  In ("Food", 905 # 2) (combine ["Food"] [905 # 2]) <->
  In "Food" (map Sql.category (Sql.expenses Sample.db)) /\
  905 # 2 = Py.sum (map Sql.amount
                        (filter (fun r => Sql.category r =? "Food")
                                (Sql.expenses Sample.db))).
Proof.
  apply (proj2 (show_chart_bars Sample.db ["Food"] [905 # 2] eq_refl)).
Defined.

End DesktopChart.

(** ** Longer descriptions *)

Section Extension.

Lemma any_in_extend (words : list string) (pre d post : string) :
  Py.any_in words (Py.lower d) = true ->
  Py.any_in words (Py.lower (pre ++ d ++ post)) = true.
Proof.
  rewrite !any_in_lower_iff. intros (k & Hk & p & w & q & -> & Hw).
  exists k. split; [exact Hk|].
  exists (pre ++ p), w, (q ++ post). split; [|exact Hw].
  clear. induction pre as [|c pre IH]; simpl.
  - induction p as [|c p IHp]; simpl; [|now rewrite IHp].
    induction w as [|c w IHw]; simpl; [reflexivity | now rewrite IHw].
  - now rewrite IH.
Qed.

Ltac split_on_tests H :=
  repeat match type of H with
         | context [if ?b then _ else _] => destruct b eqn:?
         end;
  try discriminate H;
  repeat match goal with
         | |- context [if ?b then _ else _] => destruct b eqn:?
         end;
  try reflexivity;
  exfalso;
  match goal with
  | Hp : Py.any_in ?ws (Py.lower ?d) = true,
    Hw : Py.any_in ?ws (Py.lower (?pre ++ ?d ++ ?post)) = false |- _ =>
      rewrite (any_in_extend ws pre d post Hp) in Hw; discriminate Hw
  end.

(** X16: text around a description can only add keywords.  In both
    variants a description classified Food stays Food when text is put
    before and after it, and when a description is classified
    Miscellaneous then so is every part of it. *)
Theorem longer_description_keeps_keywords (pre d post : string) :
  (V2.suggest_category d = "Food" ->
   V2.suggest_category (pre ++ d ++ post) = "Food") /\
  (V2.suggest_category (pre ++ d ++ post) = "Miscellaneous" ->
   V2.suggest_category d = "Miscellaneous") /\
  (V3.suggest_category d = "Food" ->
   V3.suggest_category (pre ++ d ++ post) = "Food") /\
  (V3.suggest_category (pre ++ d ++ post) = "Miscellaneous" ->
   V3.suggest_category d = "Miscellaneous").
Proof.
  split; [|split; [|split]].
  - intros H. apply V2_food_iff, any_in_lower_iff, any_in_extend.
    now apply any_in_lower_iff, V2_food_iff.
  - unfold V2.suggest_category. cbv zeta. intros H. split_on_tests H.
  - intros H. apply V3_food_iff, any_in_lower_iff, any_in_extend.
    now apply any_in_lower_iff, V3_food_iff.
  - unfold V3.suggest_category. cbv zeta. intros H. split_on_tests H.
Qed.

Lemma longer_description_keeps_keywords_witness :
  V2.suggest_category ("Late " ++ "pizza" ++ " by cab") = "Food".
Proof.
  apply (proj1 (longer_description_keeps_keywords "Late " "pizza" " by cab")).
  reflexivity.
Defined.

End Extension.
